(** * flopy.modflow.mflmt: the MODFLOW Link-MT3DMS package file

    A shallow embedding of [src/flopy/modflow/mflmt.py] (class [ModflowLmt]:
    [__init__], [write_file], [load], [ftype], [defaultunit]) and the
    properties of its keyword-per-line file format.

    Modelling conventions.
    - A Python [str] is a Rocq [string]; a character is a code point of the
      Latin-1 range (0..255).  [str.lower], [str.strip], [str.split] and
      [int] follow Python 3 on that range.
    - Python integers are unbounded: [Z].
    - Paths are POSIX paths ([os.path] is [posixpath]); a file is read in
      text mode with universal newlines and written without translation.
    - An exception is a value of [exn]; fallible code returns [result].
    - The outside world (files, standard output, the owning model's package
      list) is an explicit [World] threaded through [write_file], [load]
      and the constructor.
    - The framework around the module (the model object, the Package base
      class) is not part of it: what the module reads from the model is a
      field of [Model], and the base class is modelled as the record of
      what its constructor is given. *)

From Stdlib Require Import String Ascii List ZArith Bool Lia.
From Stdlib Require Import DecimalString DecimalPos DecimalZ.
Import ListNotations.

Local Open Scope string_scope.
Local Open Scope Z_scope.

(** ** Python built-ins used by the module *)

Module Py.

(** Characters that [str.split()], [str.strip()] and [int()] treat as
    white space: TAB, LF, VT, FF, CR, FS, GS, RS, US, SPACE, NEL, NBSP. *)
Definition isspace (c : ascii) : bool :=
  let n := N_of_ascii c in
  ((9 <=? n) && (n <=? 13) || (28 <=? n) && (n <=? 32)
   || (n =? 133) || (n =? 160))%N.

(** [str.lower()] on one character: A-Z and the Latin-1 capitals
    (U+00C0..U+00DE without the multiplication sign U+00D7). *)
Definition lower_char (c : ascii) : ascii :=
  let n := N_of_ascii c in
  if ((65 <=? n) && (n <=? 90)
      || (192 <=? n) && (n <=? 222) && negb (n =? 215))%N
  then ascii_of_N (n + 32) else c.

Fixpoint lower (s : string) : string :=
  match s with
  | EmptyString => EmptyString
  | String c r => String (lower_char c) (lower r)
  end.

Fixpoint lstrip (s : string) : string :=
  match s with
  | EmptyString => EmptyString
  | String c r => if isspace c then lstrip r else s
  end.

Fixpoint rstrip (s : string) : string :=
  match s with
  | EmptyString => EmptyString
  | String c r =>
      match rstrip r with
      | EmptyString => if isspace c then EmptyString else String c EmptyString
      | r' => String c r'
      end
  end.

(** [s.strip()] *)
Definition strip (s : string) : string := rstrip (lstrip s).

(** [s.split()]: the maximal runs of characters that are not white
    space, in order. *)
Fixpoint split (s : string) : list string :=
  match s with
  | EmptyString => []
  | String c r =>
      if isspace c then split r
      else match r with
           | EmptyString => [String c EmptyString]
           | String c' _ =>
               if isspace c' then String c EmptyString :: split r
               else match split r with
                    | t :: ts => String c t :: ts
                    | [] => [String c EmptyString]
                    end
           end
  end.

(** [x in xs] on a list of strings. *)
Definition contains (x : string) (xs : list string) : bool :=
  existsb (String.eqb x) xs.

(** [s.rfind(c)]: index of the last occurrence of [c], or -1. *)
Fixpoint rfind (s : string) (c : ascii) : Z :=
  match s with
  | EmptyString => -1
  | String a r =>
      let k := rfind r c in
      if 0 <=? k then k + 1
      else if Ascii.eqb a c then 0 else -1
  end.

Definition len (s : string) : Z := Z.of_nat (String.length s).

(** The bound of a slice: a negative index counts from the end, and the
    result is clipped to [0 .. len s]. *)
Definition slice_index (s : string) (k : Z) : nat :=
  Z.to_nat (if k <? 0 then Z.max 0 (k + len s) else Z.min k (len s)).

(** [s[:k]] *)
Definition slice_to (s : string) (k : Z) : string :=
  substring 0 (slice_index s k) s.

(** [s[k:]] *)
Definition slice_from (s : string) (k : Z) : string :=
  let i := slice_index s k in
  substring i (String.length s - i) s.

(** [os.path.basename(p)] of [posixpath]:
    [i = p.rfind('/') + 1; return p[i:]]. *)
Definition basename (p : string) : string :=
  slice_from p (rfind p "/"%char + 1).

Fixpoint spaces (n : nat) : string :=
  match n with
  | O => EmptyString
  | S k => String " "%char (spaces k)
  end.

(** ['{:Ws}'.format(s)]: left-justified in a field of width [w]. *)
Definition ljust (w : nat) (s : string) : string :=
  s ++ spaces (w - String.length s).

(** [str(n)] for an integer: decimal digits, ["-"] in front of a
    negative number. *)
Definition str (n : Z) : string := NilEmpty.string_of_int (Z.to_int n).

(** ['{:Wd}'.format(n)]: right-justified in a field of width [w]. *)
Definition rjust_d (w : nat) (n : Z) : string :=
  spaces (w - String.length (str n)) ++ str n.

Definition digit_value (c : ascii) : option Z :=
  let n := N_of_ascii c in
  if ((48 <=? n) && (n <=? 57))%N then Some (Z.of_N n - 48) else None.

(** The digit part of an integer literal: decimal digits, with single
    underscores allowed between two digits.  [prev] tells whether the
    previous character was a digit. *)
Fixpoint int_digits (s : string) (acc : Z) (prev : bool) : option Z :=
  match s with
  | EmptyString => if prev then Some acc else None
  | String c r =>
      match digit_value c with
      | Some d => int_digits r (10 * acc + d) true
      | None =>
          if Ascii.eqb c "_"%char && prev then int_digits r acc false
          else None
      end
  end.

(** [int(x)] for a string [x]; [None] stands for [ValueError]. *)
Definition int (x : string) : option Z :=
  match strip x with
  | EmptyString => None
  | String c r =>
      if Ascii.eqb c "-"%char then option_map Z.opp (int_digits r 0 false)
      else if Ascii.eqb c "+"%char then int_digits r 0 false
      else int_digits (String c r) 0 false
  end.

Definition LF : ascii := "010"%char.
Definition CR : ascii := "013"%char.

(** Text-mode reading translates the line ends CR LF and CR to LF. *)
Fixpoint universal_newlines (s : string) : string :=
  match s with
  | EmptyString => EmptyString
  | String c r =>
      if Ascii.eqb c CR then
        match r with
        | EmptyString => String LF EmptyString
        | String c' r' =>
            if Ascii.eqb c' LF then String LF (universal_newlines r')
            else String LF (universal_newlines r)
        end
      else String c (universal_newlines r)
  end.

(** The lines of a text as a file iterator yields them: each line keeps
    its final LF; only the last line may lack one. *)
Fixpoint splitlines_keepends (s : string) : list string :=
  match s with
  | EmptyString => []
  | String c r =>
      if Ascii.eqb c LF then String c EmptyString :: splitlines_keepends r
      else match splitlines_keepends r with
           | l :: ls => String c l :: ls
           | [] => [String c EmptyString]
           end
  end.

End Py.

(** ** Exceptions and results *)

Inductive exn : Type :=
| ValueError          (* int() of a string that is not an integer literal *)
| IndexError          (* an index out of range *)
| TypeError           (* os.path.basename of something that is not a path *)
| FileNotFoundError.  (* open() of a file that does not exist *)

Inductive result (A : Type) : Type :=
| OK (a : A)
| Err (e : exn).
Arguments OK {A} a.
Arguments Err {A} e.

(** ** The collaborators: the owning model and the Package base class *)

(** The external-unit table of a name file: unit number, file type and
    file name of each entry.  The module only passes it on. *)
Definition ExtUnitDict : Type := list (Z * (string * string)).

(** What the module reads from the owning model.  [version_label] is
    [model.version_types[model.version]]; [get_ext_dict_attr] and
    [resolve_path] (the path the Package base class resolves for an
    extension and an optional file name) belong to the framework. *)
Record Model : Type := {
  verbose : bool;
  version_label : string;
  get_ext_dict_attr : ExtUnitDict -> string -> option Z * option string;
  resolve_path : string -> option string -> string
}.

(** Modelled from the spec: the Package base class ([..pakbase.Package]) is
    not in the module; its constructor records the extension, the declared
    names, the unit numbers, the extra strings and the file names it is
    given, and exposes the resolved output path [fn_path]. *)
Record Package : Type := {
  parent : Model;
  extension : string;
  name : list string;
  unit_number : list Z;
  extra : list string;
  file_name : list (option string);
  fn_path : string
}.

Definition Package_init (model : Model) (extension : string)
    (name : list string) (unit_number : list Z) (extra : list string)
    (filenames : list (option string)) : Package :=
  {| parent := model;
     extension := extension;
     name := name;
     unit_number := unit_number;
     extra := extra;
     file_name := filenames;
     fn_path := resolve_path model extension (hd None filenames) |}.

(** ** The ModflowLmt object *)

Record ModflowLmt : Type := {
  base : Package;
  heading : string;
  url : string;
  output_file_name : string;
  output_file_unit : Z;
  output_file_header : string;
  output_file_format : string;
  package_flows : list string
}.

(** ** The world the methods act on *)

Record World : Type := {
  files : string -> option string;   (* path -> text of the file *)
  stdout : list string;              (* what was written to sys.stdout *)
  packagelist : list ModflowLmt      (* the owning model's packages *)
}.

(** A computation that reads and changes the world and may raise. *)
Definition M (A : Type) : Type := World -> result (A * World).

Definition ret {A : Type} (a : A) : M A := fun w => OK (a, w).

Definition raise {A : Type} (e : exn) : M A := fun _ => Err e.

Definition bind {A B : Type} (m : M A) (k : A -> M B) : M B :=
  fun w => match m w with
           | OK (a, w') => k a w'
           | Err e => Err e
           end.

Notation "x <- m ;; k" := (bind m (fun x => k))
  (at level 61, m at next level, right associativity).
Notation "m ;;; k" := (bind m (fun _ => k))
  (at level 61, right associativity).

(** [sys.stdout.write(s)] *)
Definition stdout_write (s : string) : M unit :=
  fun w => OK (tt, {| files := files w;
                      stdout := (stdout w ++ [s])%list;
                      packagelist := packagelist w |}).

(** [open(path, 'r')] followed by reading: the text of the file, with the
    line ends translated. *)
Definition open_read (path : string) : M string :=
  fun w => match files w path with
           | Some text => OK (Py.universal_newlines text, w)
           | None => Err FileNotFoundError
           end.

(** [open(path, 'w')], the writes and [close()]: the file now holds
    [text]. *)
Definition open_write (path text : string) : M unit :=
  fun w => OK (tt, {| files := fun p => if String.eqb p path then Some text
                                        else files w p;
                      stdout := stdout w;
                      packagelist := packagelist w |}).

(** Modelled from the spec: [model.add_package(pak)] of the framework is
    not in the module; it attaches the package to the owning model's
    package list. *)
Definition add_package (pak : ModflowLmt) : M unit :=
  fun w => OK (tt, {| files := files w;
                      stdout := stdout w;
                      packagelist := (packagelist w ++ [pak])%list |}).

(** ** Static methods *)

Definition ftype : string := "LMT6".

Definition defaultunit : Z := 30.

(** ** The constructor *)

(** The [filenames] argument: a single string or a list. *)
Inductive filenames_arg : Type :=
| FnStr (s : string)
| FnList (l : list (option string)).

(** The keyword arguments of [__init__]; [None] is an argument left out
    (for [unitnumber] and [filenames], Python's [None] itself). *)
Record init_args : Type := {
  arg_output_file_name : option string;
  arg_output_file_unit : option Z;
  arg_output_file_header : option string;
  arg_output_file_format : option string;
  arg_extension : option string;
  arg_package_flows : option (list string);
  arg_unitnumber : option Z;
  arg_filenames : option filenames_arg
}.

Definition no_args : init_args :=
  {| arg_output_file_name := None;
     arg_output_file_unit := None;
     arg_output_file_header := None;
     arg_output_file_format := None;
     arg_extension := None;
     arg_package_flows := None;
     arg_unitnumber := None;
     arg_filenames := None |}.

Definition default {A : Type} (d : A) (o : option A) : A :=
  match o with
  | Some a => a
  | None => d
  end.

(** The heading comment, from [self.name[0]] and the model's version
    label. *)
Definition make_heading (pak : Package) (model : Model) : string :=
  ("# " ++ hd "" (name pak) ++ " package for ")
  ++ (" " ++ version_label model ++ ", ")
  ++ "generated by Flopy.".

(** [__init__].  The default [[]] of [package_flows] is one list shared by
    all calls; no method of the module changes a list in place after it is
    stored, so the default is the empty list at every call. *)
Definition ModflowLmt_init (model : Model) (a : init_args) : M ModflowLmt :=
  let output_file_name := default "mt3d_link.ftl" (arg_output_file_name a) in
  let output_file_unit := default 54 (arg_output_file_unit a) in
  let output_file_header := default "extended" (arg_output_file_header a) in
  let output_file_format :=
    default "unformatted" (arg_output_file_format a) in
  let extension := default "lmt6" (arg_extension a) in
  let package_flows := default [] (arg_package_flows a) in
  (* set default unit number of one is not specified *)
  let unitnumber :=
    match arg_unitnumber a with
    | None => defaultunit
    | Some u => u
    end in
  (* set filenames *)
  let filenames :=
    match arg_filenames a with
    | None => [None]
    | Some (FnStr s) => [Some s]
    | Some (FnList l) => l
    end in
  (* Fill namefile items *)
  let name := [ftype] in
  let units := [unitnumber] in
  let extra := [""] in
  (* set package name *)
  match nth_error filenames 0 with
  | None => raise IndexError
  | Some f0 =>
      let fname := [f0] in
      let base := Package_init model extension name units extra fname in
      let self :=
        {| base := base;
           heading := make_heading base model;
           url := "lmt.htm";
           output_file_name := output_file_name;
           output_file_unit := output_file_unit;
           output_file_header := output_file_header;
           output_file_format := output_file_format;
           package_flows := package_flows |} in
      add_package self ;;;
      ret self
  end.

(** ** write_file *)

(** The package-flow keywords of the PACKAGE_FLOWS line. *)
Definition pckgs (self : ModflowLmt) : string :=
  let pckgs := "" in
  let pckgs :=
    if Py.contains "sfr" (map Py.lower (package_flows self))
    then pckgs ++ "SFR " else pckgs in
  let pckgs :=
    if Py.contains "lak" (map Py.lower (package_flows self))
    then pckgs ++ "LAK " else pckgs in
  let pckgs :=
    if Py.contains "uzf" (map Py.lower (package_flows self))
    then pckgs ++ "UZF " else pckgs in
  pckgs.

Definition NL : string := String Py.LF EmptyString.

(** The strings passed to [f.write], in order. *)
Definition write_records (self : ModflowLmt) : list string :=
  List.app
    [ heading self ++ NL;
      Py.ljust 20 ("OUTPUT_FILE_NAME " ++ output_file_name self) ++ NL;
      Py.ljust 20 "OUTPUT_FILE_UNIT " ++ " "
        ++ Py.rjust_d 10 (output_file_unit self) ++ NL;
      Py.ljust 20 ("OUTPUT_FILE_HEADER " ++ output_file_header self) ++ NL;
      Py.ljust 20 ("OUTPUT_FILE_FORMAT " ++ output_file_format self) ++ NL ]
    (* check that the list is not empty *)
    match package_flows self with
    | [] => []
    | _ :: _ =>
        let line := "PACKAGE_FLOWS " ++ pckgs self in
        [ line ++ NL ]
    end.

Definition write_text (self : ModflowLmt) : string :=
  String.concat "" (write_records self).

Definition write_file (self : ModflowLmt) : M unit :=
  open_write (fn_path (base self)) (write_text self).

(** ** load *)

(** The local variables of [load] that the scan of the lines updates. *)
Record fields : Type := {
  f_output_file_name : string;
  f_output_file_unit : Z;
  f_output_file_header : string;
  f_output_file_format : string;
  f_package_flows : list string
}.

Definition set_output_file_name (st : fields) (v : string) : fields :=
  {| f_output_file_name := v;
     f_output_file_unit := f_output_file_unit st;
     f_output_file_header := f_output_file_header st;
     f_output_file_format := f_output_file_format st;
     f_package_flows := f_package_flows st |}.

Definition set_output_file_unit (st : fields) (n : Z) : fields :=
  {| f_output_file_name := f_output_file_name st;
     f_output_file_unit := n;
     f_output_file_header := f_output_file_header st;
     f_output_file_format := f_output_file_format st;
     f_package_flows := f_package_flows st |}.

Definition set_output_file_header (st : fields) (v : string) : fields :=
  {| f_output_file_name := f_output_file_name st;
     f_output_file_unit := f_output_file_unit st;
     f_output_file_header := v;
     f_output_file_format := f_output_file_format st;
     f_package_flows := f_package_flows st |}.

Definition set_output_file_format (st : fields) (v : string) : fields :=
  {| f_output_file_name := f_output_file_name st;
     f_output_file_unit := f_output_file_unit st;
     f_output_file_header := f_output_file_header st;
     f_output_file_format := v;
     f_package_flows := f_package_flows st |}.

Definition set_package_flows (st : fields) (pf : list string) : fields :=
  {| f_output_file_name := f_output_file_name st;
     f_output_file_unit := f_output_file_unit st;
     f_output_file_header := f_output_file_header st;
     f_output_file_format := f_output_file_format st;
     f_package_flows := pf |}.

(** The chain [if t[0].lower() == ... elif ...] on the tokens [t] of a
    line, after the test [len(t) < 2]. *)
Definition scan_tokens (st : fields) (t : list string) : result fields :=
  match t with
  | t0 :: t1 :: _ =>
      if String.eqb (Py.lower t0) "output_file_name" then
        OK (set_output_file_name st t1)
      else if String.eqb (Py.lower t0) "output_file_unit" then
        match Py.int t1 with
        | Some n => OK (set_output_file_unit st n)
        | None => Err ValueError
        end
      else if String.eqb (Py.lower t0) "output_file_header" then
        OK (set_output_file_header st t1)
      else if String.eqb (Py.lower t0) "output_file_format" then
        OK (set_output_file_format st t1)
      else if String.eqb (Py.lower t0) "package_flows" then
        (* Multiple entries can follow 'package_flows' *)
        OK (set_package_flows st
              (fold_left (fun pf ti => (pf ++ [ti])%list) (skipn 1 t)
                         (f_package_flows st)))
      else OK st
  | _ => OK st                                      (* len(t) < 2 *)
  end.

(** The body of the loop [for line in f]. *)
Definition scan_line (st : fields) (line : string) : result fields :=
  match line with
  | EmptyString => Err IndexError                   (* line[0] *)
  | String c _ =>
      if Ascii.eqb c "#"%char then OK st
      else scan_tokens st (Py.split (Py.strip line))
  end.

Fixpoint scan_lines (st : fields) (lines : list string) : result fields :=
  match lines with
  | [] => OK st
  | line :: rest =>
      match scan_line st line with
      | OK st' => scan_lines st' rest
      | Err e => Err e
      end
  end.

(** The argument [f] of [load]: a file name, or an object with a [read]
    attribute (a handle). *)
Inductive file_arg : Type :=
| Filename (path : string)
| Handle.

(** The default output file name that [load] derives from [f]. *)
Definition default_output_file_name (f : string) : string :=
  let prefix := Py.basename f in
  let prefix := Py.slice_to prefix (Py.rfind prefix "."%char) in
  prefix ++ ".ftl".

(** The values [load] starts from. *)
Definition default_fields (filename : string) : fields :=
  {| f_output_file_name := default_output_file_name filename;
     f_output_file_unit := 333;
     f_output_file_header := "standard";
     f_output_file_format := "unformatted";
     f_package_flows := [] |}.

Definition load (f : file_arg) (model : Model)
    (ext_unit_dict : option ExtUnitDict) : M ModflowLmt :=
  (if verbose model then stdout_write ("loading lmt package file..." ++ NL)
   else ret tt) ;;;
  match f with
  | Handle => raise TypeError          (* os.path.basename(f) *)
  | Filename filename =>
      (* set default values *)
      let st0 := default_fields filename in
      text <- open_read filename ;;
      match scan_lines st0 (Py.splitlines_keepends text) with
      | Err e => raise e
      | OK st =>
          (* determine specified unit number *)
          let '(unitnumber, filename0) :=
            match ext_unit_dict with
            | Some d => get_ext_dict_attr model d ftype
            | None => (None, None)
            end in
          ModflowLmt_init model
            {| arg_output_file_name := Some (f_output_file_name st);
               arg_output_file_unit := Some (f_output_file_unit st);
               arg_output_file_header := Some (f_output_file_header st);
               arg_output_file_format := Some (f_output_file_format st);
               arg_extension := None;
               arg_package_flows := Some (f_package_flows st);
               arg_unitnumber := unitnumber;
               arg_filenames := Some (FnList [filename0]) |}
      end
  end.

(** ** Vocabulary of the specification *)

Fixpoint all_chars (p : ascii -> bool) (s : string) : bool :=
  match s with
  | EmptyString => true
  | String c r => p c && all_chars p r
  end.

(** A single token: not empty and free of white space. *)
Definition is_token (s : string) : bool :=
  negb (String.eqb s "") && all_chars (fun c => negb (Py.isspace c)) s.

(** Only white space. *)
Definition blank (s : string) : bool := all_chars Py.isspace s.

(** A string without line break (neither LF nor CR). *)
Definition one_line (s : string) : bool :=
  all_chars (fun c => negb (Ascii.eqb c Py.LF) && negb (Ascii.eqb c Py.CR)) s.

(** A comment line: it starts with [#] and holds no line break. *)
Definition comment_line (s : string) : bool :=
  match s with
  | String c _ => Ascii.eqb c "#"%char && one_line s
  | EmptyString => false
  end.

(** The tokens of a line as [load] sees them: [line.strip().split()]. *)
Definition tokens (line : string) : list string := Py.split (Py.strip line).

(** The recognized package-flow keys, in canonical order. *)
Definition canonical_order : list string := ["sfr"; "lak"; "uzf"].

(** A package-flow token is recognized when its lower-case form is one of
    the three keys. *)
Definition recognized (tok : string) : bool :=
  Py.contains (Py.lower tok) canonical_order.

(** The canonical-order subset of a list of package flows: the keys that
    some member equals up to case, in canonical order. *)
Definition canonical_subset (pf : list string) : list string :=
  filter (fun k => Py.contains k (map Py.lower pf)) canonical_order.

(** Upper case of the recognized keys (ASCII letters). *)
Definition upper_char (c : ascii) : ascii :=
  let n := N_of_ascii c in
  if ((97 <=? n) && (n <=? 122))%N then ascii_of_N (n - 32) else c.

Fixpoint upper (s : string) : string :=
  match s with
  | EmptyString => EmptyString
  | String c r => String (upper_char c) (upper r)
  end.

(** What follows a token: the end of the string or white space. *)
Definition ends_token (rest : string) : bool :=
  match rest with
  | EmptyString => true
  | String c _ => Py.isspace c
  end.

(** A text without CR. *)
Definition no_cr (s : string) : bool :=
  all_chars (fun c => negb (Ascii.eqb c Py.CR)) s.

(** The characters [str] produces: digits and the minus sign. *)
Definition is_digit (c : ascii) : bool :=
  match Py.digit_value c with
  | Some _ => true
  | None => false
  end.

(** ** The written file, as the specification describes it *)

(** The PACKAGE_FLOWS line: the keyword, then each recognized key that is
    present, upper-cased and followed by one space, in canonical order. *)
Definition flows_line (pf : list string) : string :=
  "PACKAGE_FLOWS "
  ++ String.concat "" (map (fun k => upper k ++ " ") (canonical_subset pf)).

(** The lines of the file, without their line ends.  A name, header or
    format shorter than the field of 20 characters is followed by padding
    spaces; the unit is right-justified in 10 columns after the padded
    keyword and one separating space. *)
Definition spec_lines (self : ModflowLmt) : list string :=
  List.app
    [ heading self;
      "OUTPUT_FILE_NAME " ++ output_file_name self
        ++ Py.spaces (3 - String.length (output_file_name self));
      "OUTPUT_FILE_UNIT"
        ++ Py.spaces (5 + (10 - String.length (Py.str (output_file_unit self))))
        ++ Py.str (output_file_unit self);
      "OUTPUT_FILE_HEADER " ++ output_file_header self
        ++ Py.spaces (1 - String.length (output_file_header self));
      "OUTPUT_FILE_FORMAT " ++ output_file_format self
        ++ Py.spaces (1 - String.length (output_file_format self)) ]
    match package_flows self with
    | [] => []
    | _ :: _ => [ flows_line (package_flows self) ]
    end.

(** The line starts with the comment character. *)
Definition starts_hash (line : string) : bool :=
  match line with
  | String c _ => Ascii.eqb c "#"%char
  | EmptyString => false
  end.

(** The five keys that [load] recognizes. *)
Definition recognized_keys : list string :=
  ["output_file_name"; "output_file_unit"; "output_file_header";
   "output_file_format"; "package_flows"].

(** A line that gives OUTPUT_FILE_UNIT (in any case) a second token that
    [int] rejects. *)
Definition malformed_unit_line (line : string) : Prop :=
  exists t0 t1 rest,
    tokens line = t0 :: t1 :: rest /\
    Py.lower t0 = "output_file_unit" /\
    Py.int t1 = None.

(** The text of a file as [load] iterates over it. *)
Definition lines_of (text : string) : list string :=
  Py.splitlines_keepends (Py.universal_newlines text).

(** The value a line gives to [key]: the second token of a line that is
    not a comment, has two tokens or more and whose first token is [key]
    up to case. *)
Definition keyed_value (key line : string) : option string :=
  if starts_hash line then None
  else match tokens line with
       | t0 :: t1 :: _ =>
           if String.eqb (Py.lower t0) key then Some t1 else None
       | _ => None
       end.

(** The value the last line that has [key] gives to it. *)
Fixpoint last_value (key : string) (lines : list string) : option string :=
  match lines with
  | [] => None
  | line :: rest =>
      match last_value key rest with
      | Some v => Some v
      | None => keyed_value key line
      end
  end.

(** The tokens a line adds to the package flows: every token after the
    first of a PACKAGE_FLOWS line. *)
Definition flow_entries (line : string) : list string :=
  if starts_hash line then []
  else match tokens line with
       | t0 :: t1 :: rest =>
           if String.eqb (Py.lower t0) "package_flows" then t1 :: rest
           else []
       | _ => []
       end.

(** The default output file name as the specification words it: the base
    name with its extension (the last dot and what follows it, when there
    is one) replaced by ".ftl". *)
Definition spec_default_output_file_name (f : string) : string :=
  let b := Py.basename f in
  (if 0 <=? Py.rfind b "."%char then Py.slice_to b (Py.rfind b "."%char)
   else b) ++ ".ftl".

(** ** Concrete inputs *)

Definition example_model : Model :=
  {| verbose := false;
     version_label := "MODFLOW-2005";
     get_ext_dict_attr := fun _ _ => (None, None);
     resolve_path :=
       fun ext f =>
         match f with
         | Some path => path
         | None => "modflowtest." ++ ext
         end |}.

Definition empty_world : World :=
  {| files := fun _ => None; stdout := []; packagelist := [] |}.

(** A world with one file. *)
Definition world_with (path text : string) : World :=
  {| files := fun p => if String.eqb p path then Some text else None;
     stdout := [];
     packagelist := [] |}.

(** An input where a scalar key and PACKAGE_FLOWS both come twice. *)
Definition repeated_keys_text : string :=
  "OUTPUT_FILE_NAME a.ftl" ++ NL ++ "PACKAGE_FLOWS SFR FOO" ++ NL
  ++ "output_file_name b.ftl" ++ NL ++ "package_flows uzf" ++ NL.

Definition example_fields : fields := default_fields "model.lmt".

(** An object with the given package flows and the default other
    fields. *)
Definition example_lmt (pf : list string) : ModflowLmt :=
  {| base := Package_init example_model "lmt6" [ftype] [defaultunit] [""]
               [None];
     heading := make_heading
                  (Package_init example_model "lmt6" [ftype] [defaultunit]
                     [""] [None])
                  example_model;
     url := "lmt.htm";
     output_file_name := "mt3d_link.ftl";
     output_file_unit := 54;
     output_file_header := "extended";
     output_file_format := "unformatted";
     package_flows := pf |}.

(** ** Vocabulary of the further properties *)

(** The first token of [s], or [d] when [s] holds none. *)
Definition first_token_or (d s : string) : string :=
  match Py.split s with
  | t :: _ => t
  | [] => d
  end.

(** A string without the character [c]. *)
Definition no_char (c : ascii) (s : string) : bool :=
  all_chars (fun x => negb (Ascii.eqb x c)) s.

(** A line that can change what [load] returns: not a comment, two tokens
    or more, and a first token that is one of the five keys up to case. *)
Definition relevant_line (line : string) : bool :=
  negb (starts_hash line)
  && match tokens line with
     | t0 :: _ :: _ => Py.contains (Py.lower t0) recognized_keys
     | _ => false
     end.

(** The unit number and file name [load] asks the model for. *)
Definition ext_attr (model : Model) (ext_unit_dict : option ExtUnitDict)
    : option Z * option string :=
  match ext_unit_dict with
  | Some d => get_ext_dict_attr model d ftype
  | None => (None, None)
  end.

(** The constructor arguments [load] builds from the scanned fields. *)
Definition load_args (model : Model) (ext_unit_dict : option ExtUnitDict)
    (st : fields) : init_args :=
  {| arg_output_file_name := Some (f_output_file_name st);
     arg_output_file_unit := Some (f_output_file_unit st);
     arg_output_file_header := Some (f_output_file_header st);
     arg_output_file_format := Some (f_output_file_format st);
     arg_extension := None;
     arg_package_flows := Some (f_package_flows st);
     arg_unitnumber := fst (ext_attr model ext_unit_dict);
     arg_filenames := Some (FnList [snd (ext_attr model ext_unit_dict)]) |}.

(** A model whose external-unit lookup finds unit 77 and a file name. *)
Definition lookup_model : Model :=
  {| verbose := true;
     version_label := "MODFLOW-NWT";
     get_ext_dict_attr := fun _ _ => (Some 77, Some "ws/run.lmt");
     resolve_path :=
       fun ext f =>
         match f with
         | Some path => path
         | None => "modflowtest." ++ ext
         end |}.

(** An object whose name holds a space and whose header is blank. *)
Definition spaced_lmt : ModflowLmt :=
  {| base := Package_init example_model "lmt6" [ftype] [defaultunit] [""]
               [None];
     heading := "# heading";
     url := "lmt.htm";
     output_file_name := "my link.ftl";
     output_file_unit := -7;
     output_file_header := " ";
     output_file_format := "formatted";
     package_flows := ["Sfr"; "bogus"; "SFR"; "uzf"] |}.

(** The text of [repeated_keys_text] with comments, a blank line and an
    unknown key added. *)
Definition noisy_keys_text : string :=
  "# first comment" ++ NL ++ "OUTPUT_FILE_NAME a.ftl" ++ NL ++ NL
  ++ "  # indented comment" ++ NL ++ "PACKAGE_FLOWS SFR FOO" ++ NL
  ++ "SOME_UNKNOWN_KEY value" ++ NL ++ "output_file_name b.ftl" ++ NL
  ++ "OUTPUT_FILE_UNIT" ++ NL ++ "package_flows uzf" ++ NL.


(** A call [ModflowLmt.ftype()] in a world: the static method takes no
    instance and its body is [return 'LMT6']. *)
Definition call_ftype : M string := ret ftype.

(** A call [ModflowLmt.defaultunit()] in a world: the static method takes
    no instance and its body is [return 30]. *)
Definition call_defaultunit : M Z := ret defaultunit.

(** A world whose package list already holds two objects. *)
Definition busy_world : World :=
  {| files := fun p => if String.eqb p "model.lmt"
                       then Some repeated_keys_text else None;
     stdout := ["earlier output"];
     packagelist := [spaced_lmt; example_lmt ["lak"]] |}.

(** ** Concrete runs *)

Section Runs.

Example split_run :
  Py.split (Py.strip ("  OUTPUT_FILE_NAME   a.ftl  x" ++ NL)) =
  ["OUTPUT_FILE_NAME"; "a.ftl"; "x"].
Proof. reflexivity. Qed.

Example int_runs :
  Py.int "12" = Some 12 /\ Py.int "-0_7" = Some (-7) /\ Py.int "+5" = Some 5
  /\ Py.int " 12 " = Some 12 /\ Py.int "1__2" = None /\ Py.int "_1" = None
  /\ Py.int "1_" = None /\ Py.int "" = None /\ Py.int "notanumber" = None
  /\ Py.int "1.5" = None.
Proof. repeat split. Qed.

Example format_runs :
  Py.ljust 20 "OUTPUT_FILE_UNIT " = "OUTPUT_FILE_UNIT    "
  /\ Py.rjust_d 10 54 = "        54"
  /\ Py.rjust_d 10 (-5) = "        -5"
  /\ Py.rjust_d 10 12345678901 = "12345678901".
Proof. repeat split. Qed.

Example basename_runs :
  Py.basename "ws/run1/model.lmt" = "model.lmt"
  /\ Py.basename "model" = "model"
  /\ Py.basename "ws/" = "".
Proof. repeat split. Qed.

Example default_name_runs :
  default_output_file_name "ws/run1/model.lmt" = "model.ftl"
  /\ default_output_file_name "a.b.lmt" = "a.b.ftl"
  /\ default_output_file_name ".lmt" = ".ftl".
Proof. repeat split. Qed.

Example lines_run :
  lines_of ("a" ++ String Py.CR NL ++ "b" ++ String Py.CR "c" ++ NL ++ "d") =
  ["a" ++ NL; "b" ++ NL; "c" ++ NL; "d"].
Proof. reflexivity. Qed.

Example write_run :
  write_text (example_lmt ["lak"; "SFR"; "sfr"; "other"]) =
  "# LMT6 package for  MODFLOW-2005, generated by Flopy." ++ NL
  ++ "OUTPUT_FILE_NAME mt3d_link.ftl" ++ NL
  ++ "OUTPUT_FILE_UNIT             54" ++ NL
  ++ "OUTPUT_FILE_HEADER extended" ++ NL
  ++ "OUTPUT_FILE_FORMAT unformatted" ++ NL
  ++ "PACKAGE_FLOWS SFR LAK " ++ NL.
Proof. reflexivity. Qed.

Example load_handle_run :
  load Handle example_model None empty_world = Err TypeError.
Proof. reflexivity. Qed.

Example load_missing_run :
  load (Filename "model.lmt") example_model None empty_world =
  Err FileNotFoundError.
Proof. reflexivity. Qed.

Example scan_run :
  scan_lines example_fields (lines_of repeated_keys_text) =
  OK {| f_output_file_name := "b.ftl";
        f_output_file_unit := 333;
        f_output_file_header := "standard";
        f_output_file_format := "unformatted";
        f_package_flows := ["SFR"; "FOO"; "uzf"] |}.
Proof. reflexivity. Qed.

End Runs.

(** ** Facts about strings *)

Section StringFacts.

Lemma app_nil_r (s : string) : s ++ "" = s.
Proof. induction s; simpl; congruence. Qed.

Lemma app_assoc (a b c : string) : (a ++ b) ++ c = a ++ (b ++ c).
Proof. induction a; simpl; congruence. Qed.

Lemma length_app (a b : string) :
  String.length (a ++ b) = (String.length a + String.length b)%nat.
Proof. induction a; simpl; congruence. Qed.

Lemma length_spaces (n : nat) : String.length (Py.spaces n) = n.
Proof. induction n; simpl; congruence. Qed.

Lemma all_chars_app (p : ascii -> bool) (a b : string) :
  all_chars p (a ++ b) = all_chars p a && all_chars p b.
Proof.
  induction a as [|c a IH]; simpl; [reflexivity|].
  rewrite IH. apply andb_assoc.
Qed.

Lemma all_chars_impl (p q : ascii -> bool) (s : string) :
  (forall c, p c = true -> q c = true) ->
  all_chars p s = true -> all_chars q s = true.
Proof.
  intros Hpq. induction s as [|c s IH]; simpl; [reflexivity|].
  intros H. apply andb_true_iff in H as [Hc Hs].
  rewrite (Hpq _ Hc), (IH Hs). reflexivity.
Qed.

Lemma all_chars_spaces (p : ascii -> bool) (n : nat) :
  p " "%char = true -> all_chars p (Py.spaces n) = true.
Proof. intros H. induction n; simpl; [reflexivity|]. now rewrite H, IHn. Qed.

Lemma blank_spaces (n : nat) : blank (Py.spaces n) = true.
Proof. apply all_chars_spaces. reflexivity. Qed.

Lemma is_token_inv (s : string) :
  is_token s = true ->
  s <> "" /\ all_chars (fun c => negb (Py.isspace c)) s = true.
Proof.
  unfold is_token. intros H. apply andb_true_iff in H as [H1 H2].
  split; [|exact H2]. intros ->. discriminate.
Qed.

Lemma token_one_line (s : string) :
  is_token s = true -> one_line s = true.
Proof.
  intros H. apply is_token_inv in H as [_ H].
  revert H. apply all_chars_impl. intros c Hc.
  destruct (Ascii.eqb_spec c Py.LF) as [->|_]; [discriminate|].
  destruct (Ascii.eqb_spec c Py.CR) as [->|_]; [discriminate|].
  reflexivity.
Qed.

End StringFacts.

(** ** Facts about split and strip *)

Section SplitFacts.

Lemma split_blank (s : string) : blank s = true -> Py.split s = [].
Proof.
  induction s as [|c s IH]; simpl; [reflexivity|].
  intros H. apply andb_true_iff in H as [Hc Hs].
  rewrite Hc. auto.
Qed.

Lemma split_space_cons (c : ascii) (s : string) :
  Py.isspace c = true -> Py.split (String c s) = Py.split s.
Proof. intros H. simpl. now rewrite H. Qed.

Lemma split_nonspace_cons (c c' : ascii) (r : string) :
  Py.isspace c = false ->
  Py.split (String c (String c' r)) =
  if Py.isspace c' then String c "" :: Py.split (String c' r)
  else match Py.split (String c' r) with
       | t :: ts => String c t :: ts
       | [] => [String c ""]
       end.
Proof. intros H. cbn [Py.split]. rewrite H. reflexivity. Qed.

Lemma split_blank_app (b s : string) :
  blank b = true -> Py.split (b ++ s) = Py.split s.
Proof.
  induction b as [|c b IH]; simpl; [reflexivity|].
  intros H. apply andb_true_iff in H as [Hc Hb].
  rewrite Hc. auto.
Qed.

Lemma split_token_app (tok rest : string) :
  is_token tok = true -> ends_token rest = true ->
  Py.split (tok ++ rest) = tok :: Py.split rest.
Proof.
  intros Htok Hrest. apply is_token_inv in Htok as [Hne Hall].
  induction tok as [|c tok IH]; [congruence|].
  simpl in Hall. apply andb_true_iff in Hall as [Hc Hall].
  apply negb_true_iff in Hc.
  destruct tok as [|c2 tok].
  - simpl. rewrite Hc. destruct rest as [|c' rest]; [reflexivity|].
    simpl in Hrest. rewrite Hrest. reflexivity.
  - assert (IH' := IH ltac:(discriminate) Hall). clear IH.
    simpl in Hall. apply andb_true_iff in Hall as [Hc2 _].
    apply negb_true_iff in Hc2.
    change ((String c (String c2 tok)) ++ rest)
      with (String c (String c2 (tok ++ rest))).
    rewrite (split_nonspace_cons _ _ _ Hc), Hc2.
    change (String c2 (tok ++ rest)) with (String c2 tok ++ rest).
    rewrite IH'. reflexivity.
Qed.

Lemma split_lstrip (s : string) : Py.split (Py.lstrip s) = Py.split s.
Proof.
  induction s as [|c s IH]; [reflexivity|].
  simpl Py.lstrip. destruct (Py.isspace c) eqn:Hc.
  - rewrite IH. symmetry. now apply split_space_cons.
  - reflexivity.
Qed.

Lemma rstrip_head (c : ascii) (s : string) :
  Py.rstrip (String c s) = "" \/ exists r, Py.rstrip (String c s) = String c r.
Proof.
  simpl. destruct (Py.rstrip s).
  - destruct (Py.isspace c); [left|right; eexists]; reflexivity.
  - right. eexists. reflexivity.
Qed.

Lemma split_rstrip (s : string) : Py.split (Py.rstrip s) = Py.split s.
Proof.
  induction s as [|c s IH]; [reflexivity|].
  destruct (Py.rstrip s) as [|c1 r1] eqn:Hr.
  - (* the rest is blank *)
    simpl Py.rstrip. rewrite Hr. simpl in IH.
    destruct (Py.isspace c) eqn:Hc.
    + simpl. now rewrite Hc.
    + simpl. rewrite Hc. destruct s as [|c' s']; [reflexivity|].
      rewrite <- IH. destruct (Py.isspace c'); reflexivity.
  - simpl Py.rstrip. rewrite Hr.
    destruct s as [|c' s']; [discriminate|].
    destruct (rstrip_head c' s') as [H0|[r H1]]; [congruence|].
    rewrite Hr in H1. injection H1 as -> ->.
    destruct (Py.isspace c) eqn:Hc.
    + rewrite (split_space_cons c (String c' r) Hc).
      rewrite (split_space_cons c (String c' s') Hc). exact IH.
    + rewrite !(split_nonspace_cons _ _ _ Hc), IH. reflexivity.
Qed.

Lemma tokens_split (line : string) : tokens line = Py.split line.
Proof.
  unfold tokens, Py.strip. now rewrite split_rstrip, split_lstrip.
Qed.

End SplitFacts.

(** ** Facts about lines *)

Section LineFacts.

Lemma universal_newlines_no_cr (s : string) :
  no_cr s = true -> Py.universal_newlines s = s.
Proof.
  induction s as [|c s IH]; [reflexivity|].
  unfold no_cr. simpl. intros H. apply andb_true_iff in H as [Hc Hs].
  apply negb_true_iff in Hc. rewrite Hc. f_equal. now apply IH.
Qed.

Lemma one_line_no_cr (s : string) : one_line s = true -> no_cr s = true.
Proof.
  apply all_chars_impl. intros c H.
  apply andb_true_iff in H. tauto.
Qed.

Lemma splitlines_line (l rest : string) :
  one_line l = true ->
  Py.splitlines_keepends (l ++ NL ++ rest) =
  (l ++ NL) :: Py.splitlines_keepends rest.
Proof.
  induction l as [|c l IH]; [reflexivity|].
  unfold one_line. cbn [all_chars]. intros H.
  apply andb_true_iff in H as [Hc Hl].
  apply andb_true_iff in Hc as [Hc _]. apply negb_true_iff in Hc.
  change (String c l ++ NL ++ rest) with (String c (l ++ NL ++ rest)).
  cbn [Py.splitlines_keepends].
  rewrite Hc. unfold one_line in IH. rewrite (IH Hl). reflexivity.
Qed.

(** A file iterator never yields an empty line. *)
Lemma splitlines_nonempty (s line : string) :
  In line (Py.splitlines_keepends s) -> line <> "".
Proof.
  revert line. induction s as [|c s IH]; simpl; [tauto|].
  intros line. destruct (Ascii.eqb c Py.LF).
  - intros [<-|H]; [discriminate|auto].
  - destruct (Py.splitlines_keepends s) as [|l ls].
    + intros [<-|[]]. discriminate.
    + intros [<-|H]; [discriminate|]. apply IH. now right.
Qed.

End LineFacts.

(** ** Facts about str and int *)

Section IntFacts.

Lemma lstrip_nonspace (s : string) :
  all_chars (fun c => negb (Py.isspace c)) s = true -> Py.lstrip s = s.
Proof.
  destruct s as [|c s]; [reflexivity|]. simpl. intros H.
  apply andb_true_iff in H as [Hc _]. apply negb_true_iff in Hc.
  now rewrite Hc.
Qed.

Lemma rstrip_nonspace (s : string) :
  all_chars (fun c => negb (Py.isspace c)) s = true -> Py.rstrip s = s.
Proof.
  induction s as [|c s IH]; [reflexivity|]. simpl. intros H.
  apply andb_true_iff in H as [Hc Hs]. apply negb_true_iff in Hc.
  rewrite (IH Hs). destruct s; [now rewrite Hc|reflexivity].
Qed.

Lemma strip_token (s : string) : is_token s = true -> Py.strip s = s.
Proof.
  intros H. apply is_token_inv in H as [_ H]. unfold Py.strip.
  rewrite (lstrip_nonspace _ H). now apply rstrip_nonspace.
Qed.

Lemma uint_digits (d : Decimal.uint) :
  all_chars is_digit (NilEmpty.string_of_uint d) = true.
Proof. induction d; simpl; auto. Qed.

Lemma uint_nonempty (d : Decimal.uint) :
  d <> Decimal.Nil -> NilEmpty.string_of_uint d <> "".
Proof. destruct d; simpl; congruence. Qed.

Lemma int_digits_acc (d : Decimal.uint) (acc : positive) :
  Py.int_digits (NilEmpty.string_of_uint d) (Z.pos acc) true =
  Some (Z.pos (Pos.of_uint_acc d acc)).
Proof.
  revert acc.
  induction d as [|d IH|d IH|d IH|d IH|d IH|d IH|d IH|d IH|d IH|d IH];
    intros acc; [reflexivity|..];
    cbn [NilEmpty.string_of_uint Py.int_digits Pos.of_uint_acc];
    change (Py.digit_value _) with (Some 0) ||
    change (Py.digit_value _) with (Some 1) ||
    change (Py.digit_value _) with (Some 2) ||
    change (Py.digit_value _) with (Some 3) ||
    change (Py.digit_value _) with (Some 4) ||
    change (Py.digit_value _) with (Some 5) ||
    change (Py.digit_value _) with (Some 6) ||
    change (Py.digit_value _) with (Some 7) ||
    change (Py.digit_value _) with (Some 8) ||
    change (Py.digit_value _) with (Some 9);
    cbv iota beta; rewrite <- IH; f_equal; lia.
Qed.

Lemma int_digits_uint (d : Decimal.uint) (prev : bool) :
  d <> Decimal.Nil \/ prev = true ->
  Py.int_digits (NilEmpty.string_of_uint d) 0 prev =
  Some (Z.of_N (Pos.of_uint d)).
Proof.
  revert prev.
  induction d as [|d IH|d IH|d IH|d IH|d IH|d IH|d IH|d IH|d IH|d IH];
    intros prev Hp;
    [destruct Hp as [Hp | ->]; [congruence|reflexivity]
    |cbn [NilEmpty.string_of_uint Py.int_digits Pos.of_uint];
     change (Py.digit_value _) with (Some 0); cbv iota beta;
     change (10 * 0 + 0) with 0; apply IH; now right
    |cbn [NilEmpty.string_of_uint Py.int_digits Pos.of_uint];
     (change (Py.digit_value _) with (Some 1) ||
      change (Py.digit_value _) with (Some 2) ||
      change (Py.digit_value _) with (Some 3) ||
      change (Py.digit_value _) with (Some 4) ||
      change (Py.digit_value _) with (Some 5) ||
      change (Py.digit_value _) with (Some 6) ||
      change (Py.digit_value _) with (Some 7) ||
      change (Py.digit_value _) with (Some 8) ||
      change (Py.digit_value _) with (Some 9));
     cbv iota beta; apply int_digits_acc ..].
Qed.

Lemma digit_not_space (c : ascii) :
  is_digit c = true -> Py.isspace c = false.
Proof.
  destruct c as [[|] [|] [|] [|] [|] [|] [|] [|]]; vm_compute; congruence.
Qed.

Lemma str_token (n : Z) : is_token (Py.str n) = true.
Proof.
  assert (Hd : forall d, all_chars (fun c => negb (Py.isspace c))
                           (NilEmpty.string_of_uint d) = true).
  { intros d. apply all_chars_impl with (p := is_digit);
      [|apply uint_digits].
    intros c Hc. now rewrite (digit_not_space c Hc). }
  unfold is_token, Py.str. destruct n as [|p|p]; [reflexivity|..];
    cbn [Z.to_int NilEmpty.string_of_int].
  - rewrite Hd, andb_true_r. apply negb_true_iff, String.eqb_neq.
    apply uint_nonempty, Unsigned.to_uint_nonnil.
  - cbn [all_chars]. rewrite Hd. reflexivity.
Qed.

Lemma uint_first_digit (d : Decimal.uint) :
  d <> Decimal.Nil ->
  exists c r, NilEmpty.string_of_uint d = String c r /\ is_digit c = true.
Proof.
  destruct d; [congruence|..]; intros _; do 2 eexists;
    (split; [reflexivity|reflexivity]).
Qed.

(** Reading back what [str] prints gives the number. *)
Lemma int_str (n : Z) : Py.int (Py.str n) = Some n.
Proof.
  unfold Py.int. rewrite (strip_token _ (str_token n)).
  unfold Py.str. destruct n as [|p|p]; [reflexivity|..];
    cbn [Z.to_int NilEmpty.string_of_int].
  - destruct (uint_first_digit (Pos.to_uint p)
                (Unsigned.to_uint_nonnil p)) as (c & r & Hs & Hc).
    assert (Hv := int_digits_uint (Pos.to_uint p) false
                    (or_introl (Unsigned.to_uint_nonnil p))).
    rewrite Unsigned.of_to, Hs in Hv. rewrite Hs.
    destruct (Ascii.eqb_spec c "-") as [->|_]; [discriminate|].
    destruct (Ascii.eqb_spec c "+") as [->|_]; [discriminate|].
    exact Hv.
  - change (Ascii.eqb "-" "-") with true. cbv iota.
    rewrite (int_digits_uint (Pos.to_uint p) false
               (or_introl (Unsigned.to_uint_nonnil p))).
    now rewrite Unsigned.of_to.
Qed.

End IntFacts.

(** The eight cases of which of the three keys a list of package flows
    holds. *)
Ltac flow_cases :=
  unfold canonical_subset, canonical_order; cbn [filter];
  destruct (Py.contains "sfr" _), (Py.contains "lak" _),
    (Py.contains "uzf" _).

Section WriteFacts.

Lemma contains_lower (k : string) (pf : list string) :
  Py.contains k (map Py.lower pf) = true <->
  exists x, In x pf /\ Py.lower x = k.
Proof.
  unfold Py.contains. rewrite existsb_exists. split.
  - intros (y & Hy & E). apply String.eqb_eq in E. subst y.
    apply in_map_iff in Hy as (x & Hx & Hin). eauto.
  - intros (x & Hin & Hx). exists k. split.
    + apply in_map_iff. eauto.
    + apply String.eqb_refl.
Qed.

(** The keyword string that [write_file] builds holds exactly the
    canonical subset, upper-cased. *)
Lemma pckgs_canonical (self : ModflowLmt) :
  pckgs self =
  String.concat ""
    (map (fun k => upper k ++ " ") (canonical_subset (package_flows self))).
Proof.
  unfold pckgs. flow_cases; reflexivity.
Qed.

Lemma split_pckgs (self : ModflowLmt) :
  Py.split (pckgs self) =
  map upper (canonical_subset (package_flows self)).
Proof.
  unfold pckgs. flow_cases; reflexivity.
Qed.

Lemma canonical_subset_upper (pf : list string) :
  canonical_subset (map upper (canonical_subset pf)) = canonical_subset pf.
Proof.
  unfold canonical_subset at 2 3. unfold canonical_order. cbn [filter].
  destruct (Py.contains "sfr" _), (Py.contains "lak" _),
    (Py.contains "uzf" _); reflexivity.
Qed.

Lemma canonical_subset_nodup (pf : list string) :
  NoDup (map upper (canonical_subset pf)).
Proof.
  flow_cases; cbn [map];
    repeat (constructor; [cbn [In]; intuition discriminate|]);
    constructor.
Qed.

Lemma write_records_spec (self : ModflowLmt) :
  write_records self = map (fun l => l ++ NL) (spec_lines self).
Proof.
  unfold write_records, spec_lines. rewrite map_app. f_equal.
  destruct (package_flows self) eqn:E; [reflexivity|].
  cbn [map]. unfold flows_line. rewrite pckgs_canonical, E.
  reflexivity.
Qed.

End WriteFacts.

(** ** Facts about the scan of the lines *)

Section ScanFacts.

Lemma fold_append_all (l acc : list string) :
  fold_left (fun pf ti => (pf ++ [ti])%list) l acc = (acc ++ l)%list.
Proof.
  revert acc. induction l as [|x l IH]; intros acc; simpl.
  - now rewrite List.app_nil_r.
  - rewrite IH, <- List.app_assoc. reflexivity.
Qed.

Lemma scan_line_hash (st : fields) (line : string) :
  starts_hash line = true -> scan_line st line = OK st.
Proof.
  destruct line as [|c r]; [discriminate|]. simpl. now intros ->.
Qed.

Lemma scan_line_tokens (st : fields) (line : string) :
  line <> "" -> starts_hash line = false ->
  scan_line st line = scan_tokens st (tokens line).
Proof.
  destruct line as [|c r]; [congruence|]. intros _ H. simpl in H.
  unfold scan_line. rewrite H. reflexivity.
Qed.

Lemma split_first_char (c : ascii) (r : string) :
  Py.isspace c = false ->
  exists t ts, Py.split (String c r) = String c t :: ts.
Proof.
  intros Hc. destruct r as [|c' r].
  - simpl. rewrite Hc. eauto.
  - rewrite (split_nonspace_cons _ _ _ Hc).
    destruct (Py.isspace c'); [eauto|].
    destruct (Py.split (String c' r)); eauto.
Qed.

(** The first token of a comment line is not a key. *)
Lemma hash_first_token (line t0 : string) (ts : list string) :
  starts_hash line = true -> tokens line = t0 :: ts ->
  exists r, Py.lower t0 = String "#"%char r.
Proof.
  destruct line as [|c r]; [discriminate|]. simpl. intros Hc.
  apply Ascii.eqb_eq in Hc. subst c. rewrite tokens_split.
  destruct (split_first_char "#"%char r eq_refl) as (t & ts' & E).
  rewrite E. intros [= <- _]. simpl. eauto.
Qed.

Lemma malformed_not_hash (line : string) :
  malformed_unit_line line -> starts_hash line = false.
Proof.
  intros (t0 & t1 & rest & Ht & Hk & _).
  destruct (starts_hash line) eqn:H; [|reflexivity].
  destruct (hash_first_token _ _ _ H Ht) as (r & E).
  rewrite Hk in E. discriminate.
Qed.

Lemma scan_line_malformed (st : fields) (line : string) :
  line <> "" -> malformed_unit_line line ->
  scan_line st line = Err ValueError.
Proof.
  intros Hne Hbad.
  rewrite (scan_line_tokens st line Hne (malformed_not_hash _ Hbad)).
  destruct Hbad as (t0 & t1 & rest & -> & Hk & Hi).
  unfold scan_tokens. rewrite Hk, Hi. reflexivity.
Qed.

Lemma scan_tokens_error (st : fields) (t : list string) (e : exn) :
  scan_tokens st t = Err e ->
  e = ValueError /\
  exists t0 t1 rest, t = t0 :: t1 :: rest /\
    Py.lower t0 = "output_file_unit" /\ Py.int t1 = None.
Proof.
  destruct t as [|t0 [|t1 rest]]; try discriminate. unfold scan_tokens.
  destruct (String.eqb_spec (Py.lower t0) "output_file_name");
    [discriminate|].
  destruct (String.eqb_spec (Py.lower t0) "output_file_unit") as [Hk|_].
  - destruct (Py.int t1) eqn:Hi; [discriminate|].
    intros [= <-]. split; [reflexivity|]. now exists t0, t1, rest.
  - destruct (String.eqb (Py.lower t0) "output_file_header");
      [discriminate|].
    destruct (String.eqb (Py.lower t0) "output_file_format");
      [discriminate|].
    destruct (String.eqb (Py.lower t0) "package_flows"); discriminate.
Qed.

Lemma scan_line_error (st : fields) (line : string) (e : exn) :
  line <> "" -> scan_line st line = Err e ->
  e = ValueError /\ malformed_unit_line line.
Proof.
  intros Hne. destruct (starts_hash line) eqn:H.
  - rewrite (scan_line_hash _ _ H). discriminate.
  - rewrite (scan_line_tokens _ _ Hne H). apply scan_tokens_error.
Qed.

Lemma scan_lines_malformed (st : fields) (lines : list string) :
  (forall l, In l lines -> l <> "") ->
  (exists line, In line lines /\ malformed_unit_line line) ->
  scan_lines st lines = Err ValueError.
Proof.
  revert st. induction lines as [|l ls IH]; intros st Hne (line & Hin & Hbad).
  - destruct Hin.
  - simpl. destruct (scan_line st l) as [st'|e] eqn:E.
    + destruct Hin as [->|Hin].
      * rewrite scan_line_malformed in E; [discriminate| |exact Hbad].
        apply Hne. now left.
      * apply IH; [intros; apply Hne; now right|eauto].
    + apply scan_line_error in E as [-> _]; [reflexivity|].
      apply Hne. now left.
Qed.

Lemma scan_lines_error (st : fields) (lines : list string) (e : exn) :
  (forall l, In l lines -> l <> "") ->
  scan_lines st lines = Err e ->
  e = ValueError /\ exists line, In line lines /\ malformed_unit_line line.
Proof.
  revert st. induction lines as [|l ls IH]; intros st Hne; [discriminate|].
  simpl. destruct (scan_line st l) as [st'|e'] eqn:E.
  - intros H. apply IH in H as (-> & line & Hin & Hbad).
    + split; [reflexivity|]. exists line. split; [now right|exact Hbad].
    + intros; apply Hne; now right.
  - intros [= ->]. apply scan_line_error in E as [-> Hbad].
    + split; [reflexivity|]. exists l. split; [now left|exact Hbad].
    + apply Hne. now left.
Qed.

Lemma lines_of_nonempty (text l : string) : In l (lines_of text) -> l <> "".
Proof. apply splitlines_nonempty. Qed.

End ScanFacts.

(** ** Facts about load *)

Section LoadFacts.

Variables (model : Model) (ext_unit_dict : option ExtUnitDict).

Lemma load_scan_error (filename text : string) (w : World) (e : exn) :
  files w filename = Some text ->
  scan_lines (default_fields filename) (lines_of text) = Err e ->
  load (Filename filename) model ext_unit_dict w = Err e.
Proof.
  intros Hf Hs. unfold load, bind, open_read, lines_of in *.
  destruct (verbose model); cbn; rewrite Hf, Hs; reflexivity.
Qed.

Lemma load_scan_ok (filename text : string) (w : World) (st : fields) :
  files w filename = Some text ->
  scan_lines (default_fields filename) (lines_of text) = OK st ->
  exists lmt w',
    load (Filename filename) model ext_unit_dict w = OK (lmt, w') /\
    output_file_name lmt = f_output_file_name st /\
    output_file_unit lmt = f_output_file_unit st /\
    output_file_header lmt = f_output_file_header st /\
    output_file_format lmt = f_output_file_format st /\
    package_flows lmt = f_package_flows st /\
    packagelist w' = (packagelist w ++ [lmt])%list.
Proof.
  intros Hf Hs. unfold load, bind, open_read, lines_of in *.
  destruct (verbose model); cbn; rewrite Hf, Hs;
    destruct (match ext_unit_dict with
              | Some d => get_ext_dict_attr model d ftype
              | None => (None, None)
              end) as [u f0];
    cbn; do 2 eexists; (split; [reflexivity|]); cbn; tauto.
Qed.

(** With the file present, [load] returns exactly when the scan does. *)
Lemma load_cases (filename text : string) (w : World) :
  files w filename = Some text ->
  match scan_lines (default_fields filename) (lines_of text) with
  | OK st =>
      exists lmt w',
        load (Filename filename) model ext_unit_dict w = OK (lmt, w') /\
        output_file_name lmt = f_output_file_name st /\
        output_file_unit lmt = f_output_file_unit st /\
        output_file_header lmt = f_output_file_header st /\
        output_file_format lmt = f_output_file_format st /\
        package_flows lmt = f_package_flows st /\
        packagelist w' = (packagelist w ++ [lmt])%list
  | Err e => load (Filename filename) model ext_unit_dict w = Err e
  end.
Proof.
  intros Hf.
  destruct (scan_lines (default_fields filename) (lines_of text)) eqn:E.
  - now apply load_scan_ok with (text := text).
  - now apply load_scan_error with (text := text).
Qed.

End LoadFacts.

(** ** Facts about what a line changes *)

Section FieldFacts.

Lemma scan_tokens_fields (st st' : fields) (t0 t1 : string)
    (rest : list string) :
  scan_tokens st (t0 :: t1 :: rest) = OK st' ->
  f_output_file_name st' =
    (if String.eqb (Py.lower t0) "output_file_name" then t1
     else f_output_file_name st)
  /\ (if String.eqb (Py.lower t0) "output_file_unit"
      then Py.int t1 = Some (f_output_file_unit st')
      else f_output_file_unit st' = f_output_file_unit st)
  /\ f_output_file_header st' =
       (if String.eqb (Py.lower t0) "output_file_header" then t1
        else f_output_file_header st)
  /\ f_output_file_format st' =
       (if String.eqb (Py.lower t0) "output_file_format" then t1
        else f_output_file_format st)
  /\ f_package_flows st' =
       (f_package_flows st ++
        (if String.eqb (Py.lower t0) "package_flows" then t1 :: rest
         else []))%list.
Proof.
  unfold scan_tokens.
  destruct (String.eqb_spec (Py.lower t0) "output_file_name") as [E|_].
  { rewrite E. intros [= <-]. cbn. now rewrite List.app_nil_r. }
  destruct (String.eqb_spec (Py.lower t0) "output_file_unit") as [E|_].
  { rewrite E. destruct (Py.int t1) eqn:Hi; [|discriminate].
    intros [= <-]. cbn. now rewrite List.app_nil_r. }
  destruct (String.eqb_spec (Py.lower t0) "output_file_header") as [E|_].
  { rewrite E. intros [= <-]. cbn. now rewrite List.app_nil_r. }
  destruct (String.eqb_spec (Py.lower t0) "output_file_format") as [E|_].
  { rewrite E. intros [= <-]. cbn. now rewrite List.app_nil_r. }
  destruct (String.eqb_spec (Py.lower t0) "package_flows") as [E|_].
  { intros [= <-]. cbn [set_package_flows f_output_file_name
      f_output_file_unit f_output_file_header f_output_file_format
      f_package_flows skipn].
    rewrite fold_append_all, <- ?List.app_assoc. cbn [List.app].
    repeat split. }
  intros [= <-]. now rewrite List.app_nil_r.
Qed.

Lemma scan_line_fields (st st' : fields) (line : string) :
  line <> "" -> scan_line st line = OK st' ->
  f_output_file_name st' =
    default (f_output_file_name st) (keyed_value "output_file_name" line)
  /\ match keyed_value "output_file_unit" line with
     | Some v => Py.int v = Some (f_output_file_unit st')
     | None => f_output_file_unit st' = f_output_file_unit st
     end
  /\ f_output_file_header st' =
       default (f_output_file_header st)
         (keyed_value "output_file_header" line)
  /\ f_output_file_format st' =
       default (f_output_file_format st)
         (keyed_value "output_file_format" line)
  /\ f_package_flows st' = (f_package_flows st ++ flow_entries line)%list.
Proof.
  intros Hne. unfold keyed_value, flow_entries.
  destruct (starts_hash line) eqn:H.
  - rewrite (scan_line_hash _ _ H). intros [= <-]. cbn.
    now rewrite List.app_nil_r.
  - rewrite (scan_line_tokens _ _ Hne H).
    destruct (tokens line) as [|t0 [|t1 rest]].
    + intros [= <-]. cbn. now rewrite List.app_nil_r.
    + intros [= <-]. cbn. now rewrite List.app_nil_r.
    + intros Hs. apply scan_tokens_fields in Hs.
      destruct Hs as (H1 & H2 & H3 & H4 & H5).
      rewrite H1, H3, H4, H5. clear H1 H3 H4 H5.
      destruct (String.eqb (Py.lower t0) "output_file_name"),
        (String.eqb (Py.lower t0) "output_file_unit"),
        (String.eqb (Py.lower t0) "output_file_header"),
        (String.eqb (Py.lower t0) "output_file_format"),
        (String.eqb (Py.lower t0) "package_flows"); cbn; tauto.
Qed.

Lemma scan_lines_fields (st st' : fields) (lines : list string) :
  (forall l, In l lines -> l <> "") ->
  scan_lines st lines = OK st' ->
  f_output_file_name st' =
    default (f_output_file_name st) (last_value "output_file_name" lines)
  /\ match last_value "output_file_unit" lines with
     | Some v => Py.int v = Some (f_output_file_unit st')
     | None => f_output_file_unit st' = f_output_file_unit st
     end
  /\ f_output_file_header st' =
       default (f_output_file_header st)
         (last_value "output_file_header" lines)
  /\ f_output_file_format st' =
       default (f_output_file_format st)
         (last_value "output_file_format" lines)
  /\ f_package_flows st' =
       (f_package_flows st ++ flat_map flow_entries lines)%list.
Proof.
  revert st. induction lines as [|l ls IH]; intros st Hne.
  - intros [= <-]. cbn. now rewrite List.app_nil_r.
  - cbn [scan_lines]. destruct (scan_line st l) as [st1|] eqn:E;
      [|discriminate].
    intros Hs. apply IH in Hs; [|intros; apply Hne; now right].
    apply scan_line_fields in E; [|apply Hne; now left].
    destruct Hs as (A1 & A2 & A3 & A4 & A5).
    destruct E as (B1 & B2 & B3 & B4 & B5).
    cbn [last_value flat_map].
    rewrite A1, A3, A4, A5, B1, B3, B4, B5, List.app_assoc. clear A1 A3 A4 A5.
    destruct (last_value "output_file_name" ls),
      (last_value "output_file_header" ls),
      (last_value "output_file_format" ls); cbn [default];
      (repeat split; try reflexivity);
      destruct (last_value "output_file_unit" ls); try exact A2;
      destruct (keyed_value "output_file_unit" l); congruence.
Qed.

End FieldFacts.

(** ** What load returns, in terms of the lines *)

Section LoadedFacts.

Variables (model : Model) (ext_unit_dict : option ExtUnitDict).

Lemma load_fields (filename text : string) (w w' : World)
    (lmt : ModflowLmt) :
  files w filename = Some text ->
  load (Filename filename) model ext_unit_dict w = OK (lmt, w') ->
  exists st,
    scan_lines (default_fields filename) (lines_of text) = OK st /\
    output_file_name lmt = f_output_file_name st /\
    output_file_unit lmt = f_output_file_unit st /\
    output_file_header lmt = f_output_file_header st /\
    output_file_format lmt = f_output_file_format st /\
    package_flows lmt = f_package_flows st.
Proof.
  intros Hf Hl. assert (Hc := load_cases model ext_unit_dict _ _ _ Hf).
  destruct (scan_lines (default_fields filename) (lines_of text))
    as [st|e] eqn:E; [|congruence].
  destruct Hc as (lmt0 & w0 & Hl0 & H1 & H2 & H3 & H4 & H5 & _).
  assert (lmt0 = lmt) by congruence. subst lmt0.
  exists st. tauto.
Qed.

Lemma flows_of_load (filename text : string) (w w' : World)
    (lmt : ModflowLmt) :
  files w filename = Some text ->
  load (Filename filename) model ext_unit_dict w = OK (lmt, w') ->
  package_flows lmt = flat_map flow_entries (lines_of text).
Proof.
  intros Hf Hl.
  destruct (load_fields _ _ _ _ _ Hf Hl) as (st & E & _ & _ & _ & _ & H5).
  rewrite H5.
  exact (proj2 (proj2 (proj2 (proj2
           (scan_lines_fields _ _ _ (lines_of_nonempty text) E))))).
Qed.

End LoadedFacts.

(** ** Reading back what write_file wrote *)

Section RoundTripFacts.

Lemma concat_cons (x : string) (xs : list string) :
  String.concat "" (x :: xs) = x ++ String.concat "" xs.
Proof. destruct xs; cbn; [now rewrite app_nil_r|reflexivity]. Qed.

Lemma no_cr_records (ls : list string) :
  Forall (fun l => one_line l = true) ls ->
  no_cr (String.concat "" (map (fun l => l ++ NL) ls)) = true.
Proof.
  induction 1 as [|l ls Hl _ IH]; [reflexivity|].
  cbn [map]. rewrite concat_cons.
  assert (Hc := one_line_no_cr _ Hl). unfold no_cr in *.
  rewrite !all_chars_app, IH, Hc. reflexivity.
Qed.

Lemma splitlines_records (ls : list string) :
  Forall (fun l => one_line l = true) ls ->
  Py.splitlines_keepends (String.concat "" (map (fun l => l ++ NL) ls)) =
  map (fun l => l ++ NL) ls.
Proof.
  induction 1 as [|l ls Hl _ IH]; [reflexivity|].
  cbn [map]. rewrite concat_cons, app_assoc, (splitlines_line _ _ Hl), IH.
  reflexivity.
Qed.

Lemma lines_of_records (ls : list string) :
  Forall (fun l => one_line l = true) ls ->
  lines_of (String.concat "" (map (fun l => l ++ NL) ls)) =
  map (fun l => l ++ NL) ls.
Proof.
  intros H. unfold lines_of.
  rewrite (universal_newlines_no_cr _ (no_cr_records _ H)).
  now apply splitlines_records.
Qed.

Lemma blank_ends_token (s : string) : blank s = true -> ends_token s = true.
Proof.
  destruct s as [|c s]; [reflexivity|]. unfold blank. cbn.
  intros H. now apply andb_true_iff in H.
Qed.

Lemma blank_app_ends_token (p s : string) :
  blank p = true -> p <> "" -> ends_token (p ++ s) = true.
Proof.
  destruct p as [|c p]; [congruence|]. unfold blank. cbn.
  intros H _. now apply andb_true_iff in H.
Qed.

Lemma tokens_key_value (key pad1 v pad2 : string) :
  is_token key = true -> blank pad1 = true -> pad1 <> "" ->
  is_token v = true -> blank pad2 = true ->
  tokens (key ++ pad1 ++ v ++ pad2) = [key; v].
Proof.
  intros Hk Hp1 Hne Hv Hp2. rewrite tokens_split.
  rewrite (split_token_app _ _ Hk (blank_app_ends_token _ _ Hp1 Hne)).
  rewrite (split_blank_app _ _ Hp1).
  rewrite (split_token_app _ _ Hv (blank_ends_token _ Hp2)).
  now rewrite (split_blank _ Hp2).
Qed.

Lemma blank_pad_NL (pad : string) :
  blank pad = true -> blank (pad ++ NL) = true.
Proof. intros H. unfold blank in *. now rewrite all_chars_app, H. Qed.

Lemma scan_comment_line (st : fields) (h : string) :
  comment_line h = true -> scan_line st (h ++ NL) = OK st.
Proof.
  intros H. apply scan_line_hash. destruct h as [|c h]; [discriminate|].
  cbn in *. now apply andb_true_iff in H.
Qed.

(** The scan of a written line [key value padding]: the line is no
    comment and its tokens are the key and the value. *)
Ltac keyword_line key v pad :=
  rewrite scan_line_tokens; [|discriminate|reflexivity];
  match goal with
  | |- scan_tokens _ (tokens ?line) = _ =>
      replace line with (key ++ " " ++ v ++ pad ++ NL)
        by (cbn; now rewrite !app_assoc)
  end;
  rewrite tokens_key_value;
    [reflexivity|reflexivity|reflexivity|discriminate|assumption
    |now apply blank_pad_NL].

Lemma scan_name_line (st : fields) (v pad : string) :
  is_token v = true -> blank pad = true ->
  scan_line st (("OUTPUT_FILE_NAME " ++ v ++ pad) ++ NL) =
  OK (set_output_file_name st v).
Proof.
  intros Hv Hp. keyword_line "OUTPUT_FILE_NAME" v pad.
Qed.

Lemma scan_header_line (st : fields) (v pad : string) :
  is_token v = true -> blank pad = true ->
  scan_line st (("OUTPUT_FILE_HEADER " ++ v ++ pad) ++ NL) =
  OK (set_output_file_header st v).
Proof.
  intros Hv Hp. keyword_line "OUTPUT_FILE_HEADER" v pad.
Qed.

Lemma scan_format_line (st : fields) (v pad : string) :
  is_token v = true -> blank pad = true ->
  scan_line st (("OUTPUT_FILE_FORMAT " ++ v ++ pad) ++ NL) =
  OK (set_output_file_format st v).
Proof.
  intros Hv Hp. keyword_line "OUTPUT_FILE_FORMAT" v pad.
Qed.

Lemma scan_tokens_unit (st : fields) (v : string) :
  scan_tokens st ["OUTPUT_FILE_UNIT"; v] =
  match Py.int v with
  | Some n => OK (set_output_file_unit st n)
  | None => Err ValueError
  end.
Proof. reflexivity. Qed.

Lemma scan_unit_line (st : fields) (k : nat) (n : Z) :
  scan_line st (("OUTPUT_FILE_UNIT" ++ Py.spaces (5 + k) ++ Py.str n) ++ NL) =
  OK (set_output_file_unit st n).
Proof.
  rewrite scan_line_tokens; [|discriminate|reflexivity].
  rewrite !app_assoc.
  rewrite tokens_key_value;
    [|reflexivity|apply blank_spaces|discriminate|apply str_token
     |reflexivity].
  now rewrite scan_tokens_unit, int_str.
Qed.

Lemma scan_flows_line (st : fields) (pf : list string) :
  exists st',
    scan_line st (flows_line pf ++ NL) = OK st' /\
    f_output_file_name st' = f_output_file_name st /\
    f_output_file_unit st' = f_output_file_unit st /\
    f_output_file_header st' = f_output_file_header st /\
    f_output_file_format st' = f_output_file_format st /\
    f_package_flows st' =
      (f_package_flows st ++ map upper (canonical_subset pf))%list.
Proof.
  unfold flows_line.
  flow_cases; (eexists; split; [reflexivity|]); cbn;
    rewrite <- ?List.app_assoc, ?List.app_nil_r; repeat split.
Qed.

Lemma flows_line_one_line (pf : list string) :
  one_line (flows_line pf) = true.
Proof.
  unfold flows_line. flow_cases; reflexivity.
Qed.

Lemma one_line_spaces (n : nat) : one_line (Py.spaces n) = true.
Proof. apply all_chars_spaces. reflexivity. Qed.

Lemma comment_one_line (h : string) :
  comment_line h = true -> one_line h = true.
Proof.
  destruct h as [|c h]; [discriminate|]. unfold comment_line.
  intros H. now apply andb_true_iff in H.
Qed.

Section Written.

Variable self : ModflowLmt.
Hypothesis Hheading : comment_line (heading self) = true.
Hypothesis Hname : is_token (output_file_name self) = true.
Hypothesis Hheader : is_token (output_file_header self) = true.
Hypothesis Hformat : is_token (output_file_format self) = true.

Lemma spec_lines_one_line :
  Forall (fun l => one_line l = true) (spec_lines self).
Proof.
  unfold spec_lines. apply Forall_app. split.
  - repeat constructor.
    + now apply comment_one_line.
    + unfold one_line. rewrite !all_chars_app.
      fold (one_line (output_file_name self)).
      rewrite (token_one_line _ Hname).
      fold (one_line (Py.spaces (3 - String.length (output_file_name self)))).
      now rewrite one_line_spaces.
    + unfold one_line. rewrite !all_chars_app.
      fold (one_line (Py.str (output_file_unit self))).
      rewrite (token_one_line _ (str_token _)).
      fold (one_line (Py.spaces
              (5 + (10 - String.length (Py.str (output_file_unit self)))))).
      now rewrite one_line_spaces.
    + unfold one_line. rewrite !all_chars_app.
      fold (one_line (output_file_header self)).
      rewrite (token_one_line _ Hheader).
      fold (one_line
              (Py.spaces (1 - String.length (output_file_header self)))).
      now rewrite one_line_spaces.
    + unfold one_line. rewrite !all_chars_app.
      fold (one_line (output_file_format self)).
      rewrite (token_one_line _ Hformat).
      fold (one_line
              (Py.spaces (1 - String.length (output_file_format self)))).
      now rewrite one_line_spaces.
  - destruct (package_flows self); repeat constructor.
    apply flows_line_one_line.
Qed.

Lemma lines_of_written :
  lines_of (write_text self) = map (fun l => l ++ NL) (spec_lines self).
Proof.
  unfold write_text. rewrite write_records_spec.
  apply lines_of_records, spec_lines_one_line.
Qed.

Lemma scan_written (st : fields) :
  exists st',
    scan_lines st (map (fun l => l ++ NL) (spec_lines self)) = OK st' /\
    f_output_file_name st' = output_file_name self /\
    f_output_file_unit st' = output_file_unit self /\
    f_output_file_header st' = output_file_header self /\
    f_output_file_format st' = output_file_format self /\
    f_package_flows st' =
      (f_package_flows st
       ++ map upper (canonical_subset (package_flows self)))%list.
Proof.
  unfold spec_lines. destruct (package_flows self) as [|x pf] eqn:E.
  - cbn [List.app map scan_lines].
    rewrite (scan_comment_line _ _ Hheading).
    rewrite (scan_name_line _ _ _ Hname (blank_spaces _)).
    rewrite scan_unit_line.
    rewrite (scan_header_line _ _ _ Hheader (blank_spaces _)).
    rewrite (scan_format_line _ _ _ Hformat (blank_spaces _)).
    eexists. split; [reflexivity|]. cbn.
    rewrite List.app_nil_r. repeat split.
  - rewrite <- E. cbn [List.app map scan_lines].
    rewrite (scan_comment_line _ _ Hheading).
    rewrite (scan_name_line _ _ _ Hname (blank_spaces _)).
    rewrite scan_unit_line.
    rewrite (scan_header_line _ _ _ Hheader (blank_spaces _)).
    rewrite (scan_format_line _ _ _ Hformat (blank_spaces _)).
    destruct (scan_flows_line
                (set_output_file_format
                   (set_output_file_header
                      (set_output_file_unit
                         (set_output_file_name st (output_file_name self))
                         (output_file_unit self))
                      (output_file_header self))
                   (output_file_format self))
                (package_flows self))
      as (st' & Hs & H1 & H2 & H3 & H4 & H5).
    rewrite Hs. exists st'. split; [reflexivity|].
    rewrite H1, H2, H3, H4, H5. cbn. repeat split.
Qed.

End Written.

End RoundTripFacts.

(** ** The heading and the default values *)

Section DefaultFacts.

Lemma make_heading_text (model : Model) (ext : string) (units : list Z)
    (extra : list string) (fname : list (option string)) :
  make_heading (Package_init model ext [ftype] units extra fname) model =
  "# LMT6 package for  " ++ version_label model ++ ", generated by Flopy.".
Proof.
  unfold make_heading, Package_init, ftype. cbn. now rewrite app_assoc.
Qed.

Lemma comment_line_app (a b : string) :
  comment_line a = true -> one_line b = true -> comment_line (a ++ b) = true.
Proof.
  destruct a as [|c a]; [discriminate|]. unfold comment_line.
  cbn [String.append]. intros Ha Hb. apply andb_true_iff in Ha as [Hc Ha].
  change (String c (a ++ b)) with (String c a ++ b).
  unfold one_line in *. now rewrite Hc, all_chars_app, Ha, Hb.
Qed.

(** The constructor builds a comment line when the version label of the
    model holds no line break. *)
Lemma constructed_heading (model : Model) (a : init_args) (w w' : World)
    (lmt : ModflowLmt) :
  ModflowLmt_init model a w = OK (lmt, w') ->
  one_line (version_label model) = true ->
  comment_line (heading lmt) = true.
Proof.
  unfold ModflowLmt_init.
  destruct (nth_error _ 0) as [f0|]; [|discriminate].
  unfold bind, add_package, ret. intros [= <- _] Hv.
  cbn [heading]. rewrite make_heading_text.
  change ("# LMT6 package for  " ++ version_label model
          ++ ", generated by Flopy.")
    with ("# LMT6 package for  "
          ++ (version_label model ++ ", generated by Flopy.")).
  apply comment_line_app; [reflexivity|].
  unfold one_line in *. now rewrite all_chars_app, Hv.
Qed.

Lemma default_name_with_extension (f : string) :
  0 <= Py.rfind (Py.basename f) "."%char ->
  default_output_file_name f = spec_default_output_file_name f.
Proof.
  intros H. unfold default_output_file_name, spec_default_output_file_name.
  cbv zeta. apply Z.leb_le in H. now rewrite H.
Qed.

(** A file that holds one comment line loads with the default values. *)
Lemma load_comment_only (filename c : string) (model : Model)
    (ext_unit_dict : option ExtUnitDict) (w : World) :
  files w filename = Some (c ++ NL) ->
  comment_line c = true ->
  exists lmt w',
    load (Filename filename) model ext_unit_dict w = OK (lmt, w') /\
    output_file_name lmt = default_output_file_name filename /\
    output_file_unit lmt = 333 /\
    output_file_header lmt = "standard" /\
    output_file_format lmt = "unformatted" /\
    package_flows lmt = [].
Proof.
  intros Hf Hc. assert (H := load_cases model ext_unit_dict _ _ _ Hf).
  assert (Hl : lines_of (c ++ NL) = [c ++ NL]).
  { apply (lines_of_records [c]). repeat constructor.
    now apply comment_one_line. }
  rewrite Hl in H. cbn [scan_lines] in H.
  rewrite (scan_comment_line _ _ Hc) in H.
  destruct H as (lmt & w' & H0 & H1 & H2 & H3 & H4 & H5 & _).
  exists lmt, w'. cbn in *. tauto.
Qed.

End DefaultFacts.

(** ** The claims *)

(** C5: constructing the object with only the owning model (every optional
    parameter left out) succeeds and yields output_file_name
    "mt3d_link.ftl", output_file_unit 54, output_file_header "extended",
    output_file_format "unformatted", no package flows and unit number 30;
    the object is attached to the model's package list. *)
Theorem C5_default_construction (model : Model) (w : World) :
  exists lmt w',
    ModflowLmt_init model no_args w = OK (lmt, w') /\
    output_file_name lmt = "mt3d_link.ftl" /\
    output_file_unit lmt = 54 /\
    output_file_header lmt = "extended" /\
    output_file_format lmt = "unformatted" /\
    package_flows lmt = [] /\
    unit_number (base lmt) = [30] /\
    packagelist w' = (packagelist w ++ [lmt])%list.
Proof.
  unfold ModflowLmt_init, bind, add_package, ret. cbn.
  do 2 eexists. split; [reflexivity|]. cbn. repeat split.
Qed.

(** C2: [write_file] stores at the package's path the heading line, the
    OUTPUT_FILE_NAME line, the OUTPUT_FILE_UNIT line with the integer
    right-justified in its field, the OUTPUT_FILE_HEADER line, the
    OUTPUT_FILE_FORMAT line and, only when package_flows is not empty, the
    PACKAGE_FLOWS line of the upper-cased recognized members in canonical
    order, each line ended by a line feed; when the members hold SFR and
    UZF (in any case and order) and not LAK, that last line is exactly
    "PACKAGE_FLOWS SFR UZF ". *)
Theorem C2_write_layout (self : ModflowLmt) (w : World) :
  (exists w',
     write_file self w = OK (tt, w') /\
     files w' (fn_path (base self)) =
     Some (String.concat "" (map (fun l => l ++ NL) (spec_lines self))))
  /\ (Py.contains "sfr" (map Py.lower (package_flows self)) = true ->
      Py.contains "uzf" (map Py.lower (package_flows self)) = true ->
      Py.contains "lak" (map Py.lower (package_flows self)) = false ->
      last (write_records self) "" = "PACKAGE_FLOWS SFR UZF " ++ NL).
Proof.
  split.
  - eexists. split; [reflexivity|]. cbn [files].
    rewrite String.eqb_refl. unfold write_text.
    now rewrite write_records_spec.
  - intros Hs Hu Hl. unfold write_records.
    destruct (package_flows self) as [|x pf] eqn:E; [discriminate|].
    rewrite <- E in Hs, Hu, Hl. unfold pckgs. rewrite Hs, Hu, Hl.
    reflexivity.
Qed.

Lemma C2_write_layout_witness :
  last (write_records (example_lmt ["uzf"; "FOO"; "Sfr"])) "" =
  "PACKAGE_FLOWS SFR UZF " ++ NL.
Proof.
  apply (proj2 (C2_write_layout (example_lmt ["uzf"; "FOO"; "Sfr"])
                  empty_world)); reflexivity.
Defined.

(** The keywords of the string [pckgs]: the upper-cased canonical subset,
    each at most once, a keyword exactly when some member equals the key
    up to case. *)
Lemma pckgs_keywords (self : ModflowLmt) :
  Py.split (pckgs self) = map upper (canonical_subset (package_flows self))
  /\ (forall tok,
        (count_occ string_dec (Py.split (pckgs self)) tok <= 1)%nat)
  /\ (forall k, In k canonical_order ->
        (In (upper k) (Py.split (pckgs self)) <->
         exists x, In x (package_flows self) /\ Py.lower x = k)).
Proof.
  split; [apply split_pckgs|]. split.
  - intros tok. rewrite split_pckgs.
    apply NoDup_count_occ, canonical_subset_nodup.
  - intros k Hk. rewrite <- contains_lower, split_pckgs.
    unfold canonical_subset, canonical_order in *. cbn [filter].
    destruct Hk as [<-|[<-|[<-|[]]]];
      destruct (Py.contains "sfr" _), (Py.contains "lak" _),
        (Py.contains "uzf" _); cbn;
      intuition (discriminate || congruence).
Qed.


(** C4: when the file holds a line whose first token is OUTPUT_FILE_UNIT
    (in any case) and whose second token [int] rejects, [load] raises
    ValueError, wherever the line stands; with the file present this is the
    only way [load] fails, so no unit is ever replaced by zero. *)
Theorem C4_malformed_unit_fails (filename text : string) (model : Model)
    (ext_unit_dict : option ExtUnitDict) (w : World) :
  files w filename = Some text ->
  ((exists line, In line (lines_of text) /\ malformed_unit_line line) ->
   load (Filename filename) model ext_unit_dict w = Err ValueError)
  /\ (forall e,
        load (Filename filename) model ext_unit_dict w = Err e ->
        e = ValueError /\
        exists line, In line (lines_of text) /\ malformed_unit_line line).
Proof.
  intros Hf. assert (Hc := load_cases model ext_unit_dict _ _ _ Hf). split.
  - intros Hbad.
    rewrite (scan_lines_malformed _ _ (lines_of_nonempty text) Hbad) in Hc.
    exact Hc.
  - intros e He.
    destruct (scan_lines (default_fields filename) (lines_of text))
      as [st|e'] eqn:E.
    + destruct Hc as (lmt & w' & Hl & _). congruence.
    + assert (e' = e) by congruence. subst e'.
      exact (scan_lines_error _ _ _ (lines_of_nonempty text) E).
Qed.

Lemma C4_malformed_unit_fails_witness :
  load (Filename "model.lmt") example_model None
    (world_with "model.lmt"
       ("# heading" ++ NL ++ "OUTPUT_FILE_UNIT notanumber" ++ NL
        ++ "output_file_unit 12" ++ NL))
  = Err ValueError.
Proof.
  apply (proj1 (C4_malformed_unit_fails "model.lmt"
                  ("# heading" ++ NL ++ "OUTPUT_FILE_UNIT notanumber" ++ NL
                   ++ "output_file_unit 12" ++ NL)
                  example_model None
                  (world_with "model.lmt"
                     ("# heading" ++ NL ++ "OUTPUT_FILE_UNIT notanumber"
                      ++ NL ++ "output_file_unit 12" ++ NL))
                  eq_refl)).
  exists ("OUTPUT_FILE_UNIT notanumber" ++ NL). split.
  - right. left. reflexivity.
  - exists "OUTPUT_FILE_UNIT", "notanumber", []. repeat split.
Defined.

(** C9: when several lines give the same scalar key, the second token of
    the last such line is the value [load] returns (the default when no
    line gives the key), while the package flows are the tokens of all the
    PACKAGE_FLOWS lines, in the order of the file: each line appends to
    what the earlier ones gave. *)
Theorem C9_last_line_wins (filename text : string) (model : Model)
    (ext_unit_dict : option ExtUnitDict) (w w' : World) (lmt : ModflowLmt) :
  files w filename = Some text ->
  load (Filename filename) model ext_unit_dict w = OK (lmt, w') ->
  output_file_name lmt =
    default (default_output_file_name filename)
      (last_value "output_file_name" (lines_of text))
  /\ match last_value "output_file_unit" (lines_of text) with
     | Some v => Py.int v = Some (output_file_unit lmt)
     | None => output_file_unit lmt = 333
     end
  /\ output_file_header lmt =
       default "standard" (last_value "output_file_header" (lines_of text))
  /\ output_file_format lmt =
       default "unformatted"
         (last_value "output_file_format" (lines_of text))
  /\ package_flows lmt = flat_map flow_entries (lines_of text).
Proof.
  intros Hf Hl.
  destruct (load_fields model ext_unit_dict _ _ _ _ _ Hf Hl)
    as (st & E & H1 & H2 & H3 & H4 & H5).
  rewrite H1, H2, H3, H4, H5.
  exact (scan_lines_fields _ _ _ (lines_of_nonempty text) E).
Qed.

Lemma C9_last_line_wins_witness :
  exists lmt w',
    load (Filename "model.lmt") example_model None
      (world_with "model.lmt" repeated_keys_text)
    = OK (lmt, w') /\
    output_file_name lmt = "b.ftl" /\
    package_flows lmt = ["SFR"; "FOO"; "uzf"].
Proof.
  destruct (load (Filename "model.lmt") example_model None
              (world_with "model.lmt" repeated_keys_text))
    as [[lmt w']|e] eqn:E.
  - exists lmt, w'. split; [reflexivity|].
    destruct (C9_last_line_wins "model.lmt" repeated_keys_text
                example_model None
                (world_with "model.lmt" repeated_keys_text) w' lmt
                eq_refl E)
      as (H1 & _ & _ & _ & H5).
    split; [exact H1|exact H5].
  - vm_compute in E. discriminate.
Defined.

Lemma lower_upper_canonical (pf : list string) :
  map Py.lower (map upper (canonical_subset pf)) = canonical_subset pf.
Proof.
  flow_cases; reflexivity.
Qed.

Lemma recognized_in (tok : string) :
  recognized tok = true <-> In (Py.lower tok) canonical_order.
Proof.
  unfold recognized, Py.contains. rewrite existsb_exists. split.
  - intros (k & Hk & E). apply String.eqb_eq in E. now subst k.
  - intros H. exists (Py.lower tok). split; [exact H|apply String.eqb_refl].
Qed.

(** C7: every token after the first on a PACKAGE_FLOWS line of the input,
    recognized or not, is in the package flows of the loaded object as it
    was read; when that object is written, the keywords of its
    PACKAGE_FLOWS line hold the token (up to case) exactly when it is
    recognized, so load followed by write loses the unrecognized
    package-flow tokens and only those. *)
Theorem C7_unrecognized_flows_dropped (filename text : string)
    (model : Model) (ext_unit_dict : option ExtUnitDict) (w w' : World)
    (lmt : ModflowLmt) (line t0 tok : string) (rest : list string) :
  files w filename = Some text ->
  load (Filename filename) model ext_unit_dict w = OK (lmt, w') ->
  In line (lines_of text) ->
  tokens line = t0 :: rest ->
  Py.lower t0 = "package_flows" ->
  In tok rest ->
  In tok (package_flows lmt)
  /\ last (write_records lmt) "" = ("PACKAGE_FLOWS " ++ pckgs lmt) ++ NL
  /\ (In (Py.lower tok) (map Py.lower (Py.split (pckgs lmt))) <->
      recognized tok = true).
Proof.
  intros Hf Hl Hin Ht Hk Htok.
  assert (Hpf := flows_of_load model ext_unit_dict filename text w w' lmt
                   Hf Hl).
  assert (Hmem : In tok (package_flows lmt)).
  { rewrite Hpf. apply in_flat_map. exists line. split; [exact Hin|].
    unfold flow_entries.
    destruct (starts_hash line) eqn:H.
    - destruct (hash_first_token _ _ _ H Ht) as (r & E).
      rewrite Hk in E. discriminate.
    - rewrite Ht. destruct rest as [|t1 rest']; [destruct Htok|].
      rewrite Hk. exact Htok. }
  split; [exact Hmem|]. split.
  - unfold write_records.
    destruct (package_flows lmt); [destruct Hmem|reflexivity].
  - rewrite split_pckgs, lower_upper_canonical, recognized_in.
    unfold canonical_subset. rewrite filter_In.
    assert (Hc : Py.contains (Py.lower tok)
                   (map Py.lower (package_flows lmt)) = true).
    { apply contains_lower. now exists tok. }
    tauto.
Qed.

Lemma C7_unrecognized_flows_dropped_witness :
  exists lmt w',
    load (Filename "model.lmt") example_model None
      (world_with "model.lmt" repeated_keys_text) = OK (lmt, w') /\
    In "FOO" (package_flows lmt) /\
    ~ In "foo" (map Py.lower (Py.split (pckgs lmt))).
Proof.
  destruct (load (Filename "model.lmt") example_model None
              (world_with "model.lmt" repeated_keys_text))
    as [[lmt w']|e] eqn:E.
  - exists lmt, w'. split; [reflexivity|].
    destruct (C7_unrecognized_flows_dropped "model.lmt" repeated_keys_text
                example_model None
                (world_with "model.lmt" repeated_keys_text) w' lmt
                ("PACKAGE_FLOWS SFR FOO" ++ NL) "PACKAGE_FLOWS" "FOO"
                ["SFR"; "FOO"] eq_refl E)
      as (H1 & _ & H3).
    + right. left. reflexivity.
    + reflexivity.
    + reflexivity.
    + right. left. reflexivity.
    + split; [exact H1|]. intros H. apply H3 in H. discriminate.
  - vm_compute in E. discriminate.
Defined.

(** C1: for every object whose heading is a comment line and whose
    output_file_name, output_file_header and output_file_format are single
    tokens free of white space, whatever its package flows, [write_file]
    followed by [load] of the written file returns an object with the same
    output_file_name, output_file_unit, output_file_header and
    output_file_format and the same canonical-order subset of recognized
    package flows (compared in lower case). *)
Theorem C1_write_load_roundtrip (self : ModflowLmt) (model : Model)
    (ext_unit_dict : option ExtUnitDict) (w : World) :
  comment_line (heading self) = true ->
  is_token (output_file_name self) = true ->
  is_token (output_file_header self) = true ->
  is_token (output_file_format self) = true ->
  exists w1 lmt w2,
    write_file self w = OK (tt, w1) /\
    load (Filename (fn_path (base self))) model ext_unit_dict w1
      = OK (lmt, w2) /\
    output_file_name lmt = output_file_name self /\
    output_file_unit lmt = output_file_unit self /\
    output_file_header lmt = output_file_header self /\
    output_file_format lmt = output_file_format self /\
    canonical_subset (package_flows lmt) =
      canonical_subset (package_flows self).
Proof.
  intros Hh Hn Hd Hf.
  eexists. 
  assert (Hfile : files
            {| files := fun p => if String.eqb p (fn_path (base self))
                                 then Some (write_text self) else files w p;
               stdout := stdout w;
               packagelist := packagelist w |}
            (fn_path (base self)) = Some (write_text self)).
  { cbn. now rewrite String.eqb_refl. }
  assert (Hc := load_cases model ext_unit_dict _ _ _ Hfile).
  rewrite (lines_of_written self Hh Hn Hd Hf) in Hc.
  destruct (scan_written self Hh Hn Hd Hf
              (default_fields (fn_path (base self))))
    as (st & Hs & H1 & H2 & H3 & H4 & H5).
  rewrite Hs in Hc.
  destruct Hc as (lmt & w2 & Hl & G1 & G2 & G3 & G4 & G5 & _).
  exists lmt, w2. split; [reflexivity|]. split; [exact Hl|].
  rewrite G1, G2, G3, G4, G5, H1, H2, H3, H4, H5.
  repeat split. cbn [default_fields f_package_flows List.app].
  apply canonical_subset_upper.
Qed.

Lemma C1_write_load_roundtrip_witness :
  exists w1 lmt w2,
    write_file (example_lmt ["uzf"; "Sfr"]) empty_world = OK (tt, w1) /\
    load (Filename "modflowtest.lmt6") example_model None w1
      = OK (lmt, w2) /\
    output_file_name lmt = "mt3d_link.ftl" /\
    output_file_unit lmt = 54 /\
    output_file_header lmt = "extended" /\
    output_file_format lmt = "unformatted" /\
    canonical_subset (package_flows lmt) = ["sfr"; "uzf"].
Proof.
  exact (C1_write_load_roundtrip (example_lmt ["uzf"; "Sfr"]) example_model
           None empty_world eq_refl eq_refl eq_refl eq_refl).
Defined.

(** C3: the default output file name that [load] derives from a file name
    without extension is not the base name followed by ".ftl": the slice
    up to [rfind('.')], which is -1, drops the last character of the base
    name.  Loading a file named "model" that holds one comment line gives
    the name "mode.ftl", with unit 333, header "standard", format
    "unformatted" and no package flows. *)
Theorem C3_default_name_without_extension :
  default_output_file_name "model" = "mode.ftl"
  /\ spec_default_output_file_name "model" = "model.ftl"
  /\ exists lmt w',
       load (Filename "model") example_model None
         (world_with "model" ("# comment" ++ NL)) = OK (lmt, w') /\
       output_file_name lmt = "mode.ftl" /\
       output_file_unit lmt = 333 /\
       output_file_header lmt = "standard" /\
       output_file_format lmt = "unformatted" /\
       package_flows lmt = [].
Proof.
  split; [reflexivity|]. split; [reflexivity|].
  exact (load_comment_only "model" "# comment" example_model None
           (world_with "model" ("# comment" ++ NL)) eq_refl eq_refl).
Qed.

(** ** Further properties of the constructor and of load *)

(** X2: the heading the constructor composes is a comment line (it starts
    with [#] and holds no line break) exactly when the version label of
    the model holds no line break. *)
Theorem X2_heading_comment_line (model : Model) (a : init_args)
    (w w' : World) (lmt : ModflowLmt) :
  ModflowLmt_init model a w = OK (lmt, w') ->
  heading lmt =
    "# LMT6 package for  " ++ version_label model ++ ", generated by Flopy."
  /\ comment_line (heading lmt) = one_line (version_label model).
Proof.
  unfold ModflowLmt_init.
  destruct (nth_error _ 0) as [f0|]; [|discriminate].
  unfold bind, add_package, ret. intros [= <- _].
  cbn [heading]. rewrite make_heading_text. split; [reflexivity|].
  unfold comment_line. cbn [String.append Ascii.eqb Bool.eqb andb].
  unfold one_line. cbn [all_chars]. rewrite !all_chars_app.
  cbn. now rewrite andb_true_r.
Qed.

Lemma X2_heading_comment_line_witness :
  exists lmt w',
    ModflowLmt_init example_model no_args empty_world = OK (lmt, w') /\
    comment_line (heading lmt) = true.
Proof.
  destruct (ModflowLmt_init example_model no_args empty_world)
    as [[lmt w']|e] eqn:E.
  - exists lmt, w'. split; [reflexivity|].
    exact (proj2 (X2_heading_comment_line example_model no_args empty_world
                    w' lmt E)).
  - vm_compute in E. discriminate.
Defined.

(** X4: the object [load] returns is registered under the file type LMT6
    with the default extension; its unit number and file name are the ones
    the model's external-unit lookup gives when a table is passed, and the
    unit number falls back to 30 (with no file name) when no table is
    passed or the lookup gives no unit. *)
Theorem X4_load_unit_number (filename : string) (model : Model)
    (ext_unit_dict : option ExtUnitDict) (w w' : World) (lmt : ModflowLmt) :
  load (Filename filename) model ext_unit_dict w = OK (lmt, w') ->
  name (base lmt) = [ftype]
  /\ extension (base lmt) = "lmt6"
  /\ unit_number (base lmt) =
       [default defaultunit (fst (ext_attr model ext_unit_dict))]
  /\ file_name (base lmt) = [snd (ext_attr model ext_unit_dict)]
  /\ (ext_unit_dict = None ->
      unit_number (base lmt) = [30] /\ file_name (base lmt) = [None]).
Proof.
  unfold load, bind, open_read, stdout_write, ret, raise, ext_attr.
  destruct (verbose model); cbn [files stdout packagelist];
    (destruct (files w filename) as [text|]; [|discriminate]);
    (destruct (scan_lines _ _) as [st|e]; [|discriminate]);
    (destruct ext_unit_dict as [d|];
     [destruct (get_ext_dict_attr model d ftype) as [[u|] f0]|]);
    cbn; intros [= <- _]; cbn; repeat split; discriminate.
Qed.

Lemma X4_load_unit_number_witness :
  exists lmt w',
    load (Filename "model.lmt") lookup_model (Some [])
      (world_with "model.lmt" repeated_keys_text) = OK (lmt, w') /\
    unit_number (base lmt) = [77] /\
    file_name (base lmt) = [Some "ws/run.lmt"].
Proof.
  destruct (load (Filename "model.lmt") lookup_model (Some [])
              (world_with "model.lmt" repeated_keys_text))
    as [[lmt w']|e] eqn:E.
  - exists lmt, w'. split; [reflexivity|].
    destruct (X4_load_unit_number _ _ _ _ _ _ E) as (_ & _ & H3 & H4 & _).
    split; [exact H3|exact H4].
  - vm_compute in E. discriminate.
Defined.

(** ** Lines that do not matter *)

Section RelevantFacts.

Lemma scan_tokens_irrelevant (st : fields) (t0 t1 : string)
    (rest : list string) :
  Py.contains (Py.lower t0) recognized_keys = false ->
  scan_tokens st (t0 :: t1 :: rest) = OK st.
Proof.
  unfold Py.contains, recognized_keys. cbn [existsb]. intros H.
  apply orb_false_iff in H as [E1 H]. apply orb_false_iff in H as [E2 H].
  apply orb_false_iff in H as [E3 H]. apply orb_false_iff in H as [E4 H].
  apply orb_false_iff in H as [E5 _].
  unfold scan_tokens. now rewrite E1, E2, E3, E4, E5.
Qed.

Lemma scan_line_irrelevant (st : fields) (line : string) :
  line <> "" -> relevant_line line = false -> scan_line st line = OK st.
Proof.
  intros Hne. unfold relevant_line. destruct (starts_hash line) eqn:H.
  - intros _. now apply scan_line_hash.
  - rewrite (scan_line_tokens _ _ Hne H). cbn [negb andb].
    destruct (tokens line) as [|t0 [|t1 rest]]; try reflexivity.
    apply scan_tokens_irrelevant.
Qed.

Lemma scan_lines_relevant (st : fields) (lines : list string) :
  (forall l, In l lines -> l <> "") ->
  scan_lines st lines = scan_lines st (filter relevant_line lines).
Proof.
  revert st. induction lines as [|l ls IH]; intros st Hne; [reflexivity|].
  cbn [filter]. destruct (relevant_line l) eqn:R.
  - cbn [scan_lines]. destruct (scan_line st l); [|reflexivity].
    apply IH. intros; apply Hne; now right.
  - cbn [scan_lines]. rewrite (scan_line_irrelevant st l); [|apply Hne; now left|exact R].
    apply IH. intros; apply Hne; now right.
Qed.

(** With the file present, [load] is the scan followed by the
    constructor. *)
Lemma load_unfold (filename text : string) (model : Model)
    (ext_unit_dict : option ExtUnitDict) (w : World) :
  files w filename = Some text ->
  exists w0,
    load (Filename filename) model ext_unit_dict w =
    match scan_lines (default_fields filename) (lines_of text) with
    | OK st => ModflowLmt_init model (load_args model ext_unit_dict st) w0
    | Err e => Err e
    end.
Proof.
  intros Hf. unfold load, bind, open_read, stdout_write, ret, raise,
    lines_of, load_args, ext_attr.
  destruct (verbose model); cbn [files]; rewrite Hf; eexists;
    (destruct (scan_lines (default_fields filename)
                 (Py.splitlines_keepends (Py.universal_newlines text)));
     [|reflexivity]);
    destruct (match ext_unit_dict with
              | Some d => get_ext_dict_attr model d ftype
              | None => (None, None)
              end); reflexivity.
Qed.

Lemma load_args_init (model : Model) (ext_unit_dict : option ExtUnitDict)
    (st : fields) :
  exists lmt,
    forall w, exists w',
      ModflowLmt_init model (load_args model ext_unit_dict st) w =
      OK (lmt, w').
Proof.
  unfold ModflowLmt_init, load_args, bind, add_package, ret. cbn.
  eexists. intros w. eexists. reflexivity.
Qed.

(** Two existing files whose scans agree load alike. *)
Lemma load_same_scan (filename t1 t2 : string) (model : Model)
    (ext_unit_dict : option ExtUnitDict) (w1 w2 : World) :
  files w1 filename = Some t1 ->
  files w2 filename = Some t2 ->
  scan_lines (default_fields filename) (lines_of t1) =
  scan_lines (default_fields filename) (lines_of t2) ->
  match load (Filename filename) model ext_unit_dict w1,
        load (Filename filename) model ext_unit_dict w2 with
  | OK (l1, _), OK (l2, _) => l1 = l2
  | Err e1, Err e2 => e1 = e2
  | _, _ => False
  end.
Proof.
  intros H1 H2 Hs.
  destruct (load_unfold _ _ model ext_unit_dict _ H1) as (u1 & ->).
  destruct (load_unfold _ _ model ext_unit_dict _ H2) as (u2 & ->).
  rewrite Hs.
  destruct (scan_lines (default_fields filename) (lines_of t2)) as [st|e];
    [|reflexivity].
  destruct (load_args_init model ext_unit_dict st) as (lmt & Hl).
  destruct (Hl u1) as (w1' & ->). destruct (Hl u2) as (w2' & ->).
  reflexivity.
Qed.

End RelevantFacts.

(** X5: what [load] returns depends only on the lines that are no comment,
    have two tokens or more and start with one of the five keys: two files
    of the same name (in any two worlds) whose sequences of such lines are
    equal either both fail with the same exception or both load to the
    same object.  Comments, indented comments, blank lines, one-token
    lines and lines with an unknown key can be added or removed freely. *)
Theorem X5_only_relevant_lines (filename t1 t2 : string) (model : Model)
    (ext_unit_dict : option ExtUnitDict) (w1 w2 : World) :
  files w1 filename = Some t1 ->
  files w2 filename = Some t2 ->
  filter relevant_line (lines_of t1) = filter relevant_line (lines_of t2) ->
  (forall e,
     load (Filename filename) model ext_unit_dict w1 = Err e <->
     load (Filename filename) model ext_unit_dict w2 = Err e)
  /\ (forall l1 w1' l2 w2',
        load (Filename filename) model ext_unit_dict w1 = OK (l1, w1') ->
        load (Filename filename) model ext_unit_dict w2 = OK (l2, w2') ->
        l1 = l2)
  /\ ((exists l1 w1',
         load (Filename filename) model ext_unit_dict w1 = OK (l1, w1')) <->
      (exists l2 w2',
         load (Filename filename) model ext_unit_dict w2 = OK (l2, w2'))).
Proof.
  intros H1 H2 Hr.
  assert (Hs : scan_lines (default_fields filename) (lines_of t1) =
               scan_lines (default_fields filename) (lines_of t2)).
  { rewrite (scan_lines_relevant _ _ (lines_of_nonempty t1)).
    rewrite (scan_lines_relevant _ _ (lines_of_nonempty t2)).
    now rewrite Hr. }
  assert (H := load_same_scan filename t1 t2 model ext_unit_dict w1 w2
                 H1 H2 Hs).
  destruct (load (Filename filename) model ext_unit_dict w1)
    as [[l1 w1']|e1];
    destruct (load (Filename filename) model ext_unit_dict w2)
      as [[l2 w2']|e2]; try contradiction; subst.
  - split; [intros e; split; discriminate|]. split.
    + now intros ? ? ? ? [= <- _] [= <- _].
    + split; intros _; eauto.
  - split; [intros e; split; intros [= <-]; reflexivity|]. split.
    + discriminate.
    + split; intros (? & ? & ?); discriminate.
Qed.

Lemma X5_only_relevant_lines_witness :
  exists l w1' w2',
    load (Filename "model.lmt") example_model None
      (world_with "model.lmt" repeated_keys_text) = OK (l, w1') /\
    load (Filename "model.lmt") example_model None
      (world_with "model.lmt" noisy_keys_text) = OK (l, w2').
Proof.
  assert (Hr : filter relevant_line (lines_of repeated_keys_text) =
               filter relevant_line (lines_of noisy_keys_text))
    by (vm_compute; reflexivity).
  destruct (load (Filename "model.lmt") example_model None
              (world_with "model.lmt" repeated_keys_text))
    as [[l1 w1']|e1] eqn:E1; [|vm_compute in E1; discriminate].
  destruct (load (Filename "model.lmt") example_model None
              (world_with "model.lmt" noisy_keys_text))
    as [[l2 w2']|e2] eqn:E2; [|vm_compute in E2; discriminate].
  exists l1, w1', w2'. split; [reflexivity|].
  now rewrite (proj1 (proj2 (X5_only_relevant_lines "model.lmt"
                 repeated_keys_text noisy_keys_text example_model
                 None (world_with "model.lmt" repeated_keys_text)
                 (world_with "model.lmt" noisy_keys_text)
                 eq_refl eq_refl Hr)) l1 w1' l2 w2' E1 E2).
Defined.

(** ** Reading back any written object *)

Section AnyFieldFacts.

Lemma split_app_blank (s b : string) :
  blank b = true -> Py.split (s ++ b) = Py.split s.
Proof.
  intros Hb. induction s as [|c s IH].
  - cbn [String.append]. now apply split_blank.
  - destruct (Py.isspace c) eqn:Hc.
    + change (String c s ++ b) with (String c (s ++ b)).
      now rewrite !(split_space_cons c _ Hc).
    + destruct s as [|c2 s].
      * cbn [String.append].
        destruct b as [|c' b]; [reflexivity|].
        rewrite (split_nonspace_cons _ _ _ Hc).
        assert (Hc' : Py.isspace c' = true).
        { unfold blank in Hb. cbn in Hb. now apply andb_true_iff in Hb. }
        rewrite Hc', (split_blank _ Hb). cbn. now rewrite Hc.
      * change (String c (String c2 s) ++ b)
          with (String c (String c2 (s ++ b))).
        rewrite !(split_nonspace_cons _ _ _ Hc).
        change (String c2 (s ++ b)) with (String c2 s ++ b).
        now rewrite IH.
Qed.

Lemma split_tokens (s : string) :
  Forall (fun t => is_token t = true) (Py.split s).
Proof.
  induction s as [|c s IH]; [constructor|].
  destruct (Py.isspace c) eqn:Hc.
  - now rewrite (split_space_cons c s Hc).
  - assert (H1 : is_token (String c "") = true).
    { unfold is_token. cbn. now rewrite Hc. }
    destruct s as [|c2 s]; [cbn; rewrite Hc; now constructor|].
    rewrite (split_nonspace_cons _ _ _ Hc).
    destruct (Py.isspace c2); [now constructor|].
    destruct (Py.split (String c2 s)) as [|t ts]; [now constructor|].
    inversion IH as [|? ? Ht Hts]; subst. constructor; [|exact Hts].
    unfold is_token in *. cbn. rewrite Hc. cbn.
    now apply andb_true_iff in Ht.
Qed.

Lemma split_one_token (t : string) : is_token t = true -> Py.split t = [t].
Proof.
  intros H. rewrite <- (app_nil_r t) at 1.
  now rewrite (split_token_app t "" H eq_refl).
Qed.

Lemma first_token_or_token (d t : string) :
  is_token t = true -> first_token_or d t = t.
Proof. intros H. unfold first_token_or. now rewrite split_one_token. Qed.

Lemma tokens_keyword_any (key v pad : string) :
  is_token key = true -> blank pad = true ->
  tokens (key ++ " " ++ v ++ pad ++ NL) = key :: Py.split v.
Proof.
  intros Hk Hp. rewrite tokens_split.
  rewrite (split_token_app key (" " ++ v ++ pad ++ NL) Hk eq_refl).
  change (" " ++ v ++ pad ++ NL) with (String " "%char (v ++ pad ++ NL)).
  rewrite (split_space_cons " "%char (v ++ pad ++ NL) eq_refl).
  now rewrite (split_app_blank v _ (blank_pad_NL _ Hp)).
Qed.

(** The scan of a written line [key value padding] for any value. *)
Ltac keyword_line_any key v pad :=
  rewrite scan_line_tokens; [|discriminate|reflexivity];
  match goal with
  | |- scan_tokens _ (tokens ?line) = _ =>
      replace line with (key ++ " " ++ v ++ pad ++ NL)
        by (cbn; now rewrite !app_assoc)
  end;
  rewrite tokens_keyword_any; [|reflexivity|assumption];
  destruct (Py.split v); reflexivity.

Lemma scan_name_line_any (st : fields) (v pad : string) :
  blank pad = true ->
  scan_line st (("OUTPUT_FILE_NAME " ++ v ++ pad) ++ NL) =
  OK match Py.split v with
     | t :: _ => set_output_file_name st t
     | [] => st
     end.
Proof. intros Hp. keyword_line_any "OUTPUT_FILE_NAME" v pad. Qed.

Lemma scan_header_line_any (st : fields) (v pad : string) :
  blank pad = true ->
  scan_line st (("OUTPUT_FILE_HEADER " ++ v ++ pad) ++ NL) =
  OK match Py.split v with
     | t :: _ => set_output_file_header st t
     | [] => st
     end.
Proof. intros Hp. keyword_line_any "OUTPUT_FILE_HEADER" v pad. Qed.

Lemma scan_format_line_any (st : fields) (v pad : string) :
  blank pad = true ->
  scan_line st (("OUTPUT_FILE_FORMAT " ++ v ++ pad) ++ NL) =
  OK match Py.split v with
     | t :: _ => set_output_file_format st t
     | [] => st
     end.
Proof. intros Hp. keyword_line_any "OUTPUT_FILE_FORMAT" v pad. Qed.

Section WrittenAny.

Variable self : ModflowLmt.
Hypothesis Hheading : comment_line (heading self) = true.
Hypothesis Hname : one_line (output_file_name self) = true.
Hypothesis Hheader : one_line (output_file_header self) = true.
Hypothesis Hformat : one_line (output_file_format self) = true.

Lemma spec_lines_one_line_any :
  Forall (fun l => one_line l = true) (spec_lines self).
Proof.
  unfold spec_lines. apply Forall_app. split.
  - repeat constructor.
    + now apply comment_one_line.
    + unfold one_line in *. rewrite !all_chars_app, Hname.
      rewrite all_chars_spaces by reflexivity. reflexivity.
    + assert (Hs := token_one_line _ (str_token (output_file_unit self))).
      unfold one_line in *. rewrite !all_chars_app, Hs.
      rewrite all_chars_spaces by reflexivity. reflexivity.
    + unfold one_line in *. rewrite !all_chars_app, Hheader.
      rewrite all_chars_spaces by reflexivity. reflexivity.
    + unfold one_line in *. rewrite !all_chars_app, Hformat.
      rewrite all_chars_spaces by reflexivity. reflexivity.
  - destruct (package_flows self); repeat constructor.
    apply flows_line_one_line.
Qed.

Lemma scan_written_any (st : fields) :
  exists st',
    scan_lines st (map (fun l => l ++ NL) (spec_lines self)) = OK st' /\
    f_output_file_name st' =
      first_token_or (f_output_file_name st) (output_file_name self) /\
    f_output_file_unit st' = output_file_unit self /\
    f_output_file_header st' =
      first_token_or (f_output_file_header st) (output_file_header self) /\
    f_output_file_format st' =
      first_token_or (f_output_file_format st) (output_file_format self) /\
    f_package_flows st' =
      (f_package_flows st
       ++ map upper (canonical_subset (package_flows self)))%list.
Proof.
  unfold spec_lines, first_token_or.
  destruct (package_flows self) as [|x pf] eqn:E.
  - cbn [List.app map scan_lines].
    rewrite (scan_comment_line _ _ Hheading).
    rewrite (scan_name_line_any _ _ _ (blank_spaces _)).
    rewrite scan_unit_line.
    rewrite (scan_header_line_any _ _ _ (blank_spaces _)).
    rewrite (scan_format_line_any _ _ _ (blank_spaces _)).
    eexists. split; [reflexivity|].
    destruct (Py.split (output_file_name self)),
      (Py.split (output_file_header self)),
      (Py.split (output_file_format self)); cbn;
      rewrite List.app_nil_r; repeat split.
  - rewrite <- E. cbn [List.app map scan_lines].
    rewrite (scan_comment_line _ _ Hheading).
    rewrite (scan_name_line_any _ _ _ (blank_spaces _)).
    rewrite scan_unit_line.
    rewrite (scan_header_line_any _ _ _ (blank_spaces _)).
    rewrite (scan_format_line_any _ _ _ (blank_spaces _)).
    match goal with
    | |- context [scan_line ?s (flows_line _ ++ NL)] =>
        destruct (scan_flows_line s (package_flows self))
          as (st' & Hs & H1 & H2 & H3 & H4 & H5)
    end.
    rewrite Hs. exists st'. split; [reflexivity|].
    rewrite H1, H2, H3, H4, H5.
    destruct (Py.split (output_file_name self)),
      (Py.split (output_file_header self)),
      (Py.split (output_file_format self)); cbn; repeat split.
Qed.

(** What [load] returns for the file [write_file] wrote. *)
Lemma write_load_fields (model : Model)
    (ext_unit_dict : option ExtUnitDict) (w : World) :
  exists w1 lmt w2,
    write_file self w = OK (tt, w1) /\
    load (Filename (fn_path (base self))) model ext_unit_dict w1
      = OK (lmt, w2) /\
    output_file_name lmt =
      first_token_or (default_output_file_name (fn_path (base self)))
        (output_file_name self) /\
    output_file_unit lmt = output_file_unit self /\
    output_file_header lmt =
      first_token_or "standard" (output_file_header self) /\
    output_file_format lmt =
      first_token_or "unformatted" (output_file_format self) /\
    package_flows lmt = map upper (canonical_subset (package_flows self)).
Proof.
  eexists.
  assert (Hfile : files
            {| files := fun p => if String.eqb p (fn_path (base self))
                                 then Some (write_text self) else files w p;
               stdout := stdout w;
               packagelist := packagelist w |}
            (fn_path (base self)) = Some (write_text self)).
  { cbn. now rewrite String.eqb_refl. }
  assert (Hc := load_cases model ext_unit_dict _ _ _ Hfile).
  assert (Hl : lines_of (write_text self) =
               map (fun l => l ++ NL) (spec_lines self)).
  { unfold write_text. rewrite write_records_spec.
    apply lines_of_records, spec_lines_one_line_any. }
  rewrite Hl in Hc.
  destruct (scan_written_any (default_fields (fn_path (base self))))
    as (st & Hs & H1 & H2 & H3 & H4 & H5).
  rewrite Hs in Hc.
  destruct Hc as (lmt & w2 & Hload & G1 & G2 & G3 & G4 & G5 & _).
  exists lmt, w2. split; [reflexivity|]. split; [exact Hload|].
  rewrite G1, G2, G3, G4, G5, H1, H2, H3, H4, H5. cbn. repeat split.
Qed.

End WrittenAny.

End AnyFieldFacts.

(** X6: for every object whose heading is a comment line and whose name,
    header and format hold no line break, [write_file] followed by [load]
    of the written file succeeds and returns: as name, header and format
    the first token of the stored value (a value with white space inside
    is cut at the first white space), or the default of [load] when the
    value holds no token (empty or blank); the same unit, for every
    integer; and as package flows exactly the recognized keys that were
    present, upper-cased, without duplicates and in canonical order. *)
Theorem X6_write_load_any_fields (self : ModflowLmt) (model : Model)
    (ext_unit_dict : option ExtUnitDict) (w : World) :
  comment_line (heading self) = true ->
  one_line (output_file_name self) = true ->
  one_line (output_file_header self) = true ->
  one_line (output_file_format self) = true ->
  exists w1 lmt w2,
    write_file self w = OK (tt, w1) /\
    load (Filename (fn_path (base self))) model ext_unit_dict w1
      = OK (lmt, w2) /\
    output_file_name lmt =
      first_token_or (default_output_file_name (fn_path (base self)))
        (output_file_name self) /\
    output_file_unit lmt = output_file_unit self /\
    output_file_header lmt =
      first_token_or "standard" (output_file_header self) /\
    output_file_format lmt =
      first_token_or "unformatted" (output_file_format self) /\
    package_flows lmt = map upper (canonical_subset (package_flows self)).
Proof.
  intros Hh Hn Hd Hf. now apply write_load_fields.
Qed.

Lemma X6_write_load_any_fields_witness :
  exists w1 lmt w2,
    write_file spaced_lmt empty_world = OK (tt, w1) /\
    load (Filename "modflowtest.lmt6") example_model None w1
      = OK (lmt, w2) /\
    output_file_name lmt = "my" /\
    output_file_unit lmt = -7 /\
    output_file_header lmt = "standard" /\
    output_file_format lmt = "formatted" /\
    package_flows lmt = ["SFR"; "UZF"].
Proof.
  exact (X6_write_load_any_fields spaced_lmt example_model None empty_world
           eq_refl eq_refl eq_refl eq_refl).
Defined.

(** ** Writing again what was read back *)

Section RewriteFacts.

Lemma pckgs_of_upper (l1 l2 : ModflowLmt) :
  package_flows l1 = map upper (canonical_subset (package_flows l2)) ->
  pckgs l1 = pckgs l2.
Proof.
  intros H. rewrite (pckgs_canonical l1), (pckgs_canonical l2), H.
  now rewrite canonical_subset_upper.
Qed.

Lemma tl_write_records (self : ModflowLmt) :
  tl (write_records self) =
  List.app
    [ Py.ljust 20 ("OUTPUT_FILE_NAME " ++ output_file_name self) ++ NL;
      Py.ljust 20 "OUTPUT_FILE_UNIT " ++ " "
        ++ Py.rjust_d 10 (output_file_unit self) ++ NL;
      Py.ljust 20 ("OUTPUT_FILE_HEADER " ++ output_file_header self) ++ NL;
      Py.ljust 20 ("OUTPUT_FILE_FORMAT " ++ output_file_format self) ++ NL ]
    match package_flows self with
    | [] => []
    | _ :: _ => [ ("PACKAGE_FLOWS " ++ pckgs self) ++ NL ]
    end.
Proof. reflexivity. Qed.

Lemma keyed_value_token (key line v : string) :
  keyed_value key line = Some v -> is_token v = true.
Proof.
  unfold keyed_value. destruct (starts_hash line); [discriminate|].
  rewrite tokens_split. assert (H := split_tokens line).
  destruct (Py.split line) as [|t0 [|t1 rest]]; try discriminate.
  destruct (String.eqb (Py.lower t0) key); [|discriminate].
  intros [= <-]. inversion H as [|? ? _ H1]; subst.
  now inversion H1.
Qed.

Lemma last_value_token (key v : string) (lines : list string) :
  last_value key lines = Some v -> is_token v = true.
Proof.
  induction lines as [|l ls IH]; [discriminate|]. cbn [last_value].
  destruct (last_value key ls) as [v'|].
  - intros [= <-]. now apply IH.
  - apply keyed_value_token.
Qed.

Lemma all_chars_substring (p : ascii -> bool) (s : string) (n m : nat) :
  all_chars p s = true -> all_chars p (substring n m s) = true.
Proof.
  revert n m. induction s as [|c s IH]; intros n m H.
  - destruct n, m; reflexivity.
  - cbn in H. apply andb_true_iff in H as [Hc Hs].
    destruct n as [|n]; destruct m as [|m]; cbn; try reflexivity.
    + now rewrite Hc, (IH 0%nat m Hs).
    + now apply IH.
    + now apply IH.
Qed.

Lemma default_name_one_line (f : string) :
  one_line f = true -> one_line (default_output_file_name f) = true.
Proof.
  intros H. unfold default_output_file_name, Py.basename, Py.slice_to,
    Py.slice_from. cbv zeta. unfold one_line in *.
  rewrite all_chars_app. apply andb_true_iff. split; [|reflexivity].
  now apply all_chars_substring, all_chars_substring.
Qed.

(** The scalar fields that [load] returns are single tokens, except a
    name that is the default derived from the file name. *)
Lemma loaded_tokens (filename text : string) (model : Model)
    (ext_unit_dict : option ExtUnitDict) (w w' : World) (lmt : ModflowLmt) :
  files w filename = Some text ->
  load (Filename filename) model ext_unit_dict w = OK (lmt, w') ->
  (output_file_name lmt = default_output_file_name filename
   \/ is_token (output_file_name lmt) = true)
  /\ is_token (output_file_header lmt) = true
  /\ is_token (output_file_format lmt) = true.
Proof.
  intros Hf Hl.
  destruct (load_fields model ext_unit_dict _ _ _ _ _ Hf Hl)
    as (st & E & H1 & _ & H3 & H4 & _).
  destruct (scan_lines_fields _ _ _ (lines_of_nonempty text) E)
    as (A1 & _ & A3 & A4 & _).
  rewrite H1, H3, H4, A1, A3, A4. cbn [default_fields f_output_file_name
    f_output_file_header f_output_file_format]. repeat split.
  - destruct (last_value "output_file_name" (lines_of text)) eqn:L;
      [right; now apply (last_value_token _ _ _ L)|now left].
  - destruct (last_value "output_file_header" (lines_of text)) eqn:L;
      [now apply (last_value_token _ _ _ L)|reflexivity].
  - destruct (last_value "output_file_format" (lines_of text)) eqn:L;
      [now apply (last_value_token _ _ _ L)|reflexivity].
Qed.

Lemma loaded_heading (filename text : string) (model : Model)
    (ext_unit_dict : option ExtUnitDict) (w w' : World) (lmt : ModflowLmt) :
  files w filename = Some text ->
  load (Filename filename) model ext_unit_dict w = OK (lmt, w') ->
  one_line (version_label model) = true ->
  comment_line (heading lmt) = true.
Proof.
  intros Hf Hl Hv.
  destruct (load_unfold _ _ model ext_unit_dict _ Hf) as (w0 & E).
  rewrite E in Hl.
  destruct (scan_lines (default_fields filename) (lines_of text));
    [|discriminate].
  exact (constructed_heading _ _ _ _ _ Hl Hv).
Qed.

End RewriteFacts.

(** X7: when an object with token name, header and format is written,
    read back and written again, the second file holds after its heading
    the same records as the first, with one exception: the PACKAGE_FLOWS
    record without any keyword, which the first write emits for a list
    that is not empty but holds no recognized member, is not written
    again. *)
Theorem X7_second_write (self : ModflowLmt) (model : Model)
    (ext_unit_dict : option ExtUnitDict) (w : World) :
  comment_line (heading self) = true ->
  is_token (output_file_name self) = true ->
  is_token (output_file_header self) = true ->
  is_token (output_file_format self) = true ->
  exists w1 lmt w2,
    write_file self w = OK (tt, w1) /\
    load (Filename (fn_path (base self))) model ext_unit_dict w1
      = OK (lmt, w2) /\
    tl (write_records lmt) =
      match package_flows self, canonical_subset (package_flows self) with
      | _ :: _, [] => removelast (tl (write_records self))
      | _, _ => tl (write_records self)
      end.
Proof.
  intros Hh Hn Hd Hf.
  destruct (write_load_fields self Hh (token_one_line _ Hn)
              (token_one_line _ Hd) (token_one_line _ Hf)
              model ext_unit_dict w)
    as (w1 & lmt & w2 & Hw & Hl & H1 & H2 & H3 & H4 & H5).
  exists w1, lmt, w2. split; [exact Hw|]. split; [exact Hl|].
  rewrite (first_token_or_token _ _ Hn) in H1.
  rewrite (first_token_or_token _ _ Hd) in H3.
  rewrite (first_token_or_token _ _ Hf) in H4.
  rewrite !tl_write_records, H1, H2, H3, H4, (pckgs_of_upper _ _ H5), H5.
  destruct (package_flows self) as [|x pf] eqn:E.
  - reflexivity.
  - rewrite <- E. destruct (canonical_subset (package_flows self)).
    + reflexivity.
    + reflexivity.
Qed.

Lemma X7_second_write_witness :
  exists w1 lmt w2,
    write_file (example_lmt ["bogus"]) empty_world = OK (tt, w1) /\
    load (Filename "modflowtest.lmt6") example_model None w1
      = OK (lmt, w2) /\
    tl (write_records lmt) =
      removelast (tl (write_records (example_lmt ["bogus"]))).
Proof.
  exact (X7_second_write (example_lmt ["bogus"]) example_model None
           empty_world eq_refl eq_refl eq_refl eq_refl).
Defined.

(** X8: whatever [load] returns for a file whose name holds no line break,
    under a model whose version label holds none, can be written and
    loaded again: the second load succeeds with the same unit, header and
    format, with the recognized package flows upper-cased in canonical
    order, and with the same name whenever the name is a single token
    (always the case when a line of the file gave it). *)
Theorem X8_load_write_load (filename text : string) (model model2 : Model)
    (ext_unit_dict ext_unit_dict2 : option ExtUnitDict) (w w1 : World)
    (lmt : ModflowLmt) :
  files w filename = Some text ->
  load (Filename filename) model ext_unit_dict w = OK (lmt, w1) ->
  one_line (version_label model) = true ->
  one_line filename = true ->
  exists w2 lmt2 w3,
    write_file lmt w1 = OK (tt, w2) /\
    load (Filename (fn_path (base lmt))) model2 ext_unit_dict2 w2
      = OK (lmt2, w3) /\
    output_file_unit lmt2 = output_file_unit lmt /\
    output_file_header lmt2 = output_file_header lmt /\
    output_file_format lmt2 = output_file_format lmt /\
    package_flows lmt2 = map upper (canonical_subset (package_flows lmt)) /\
    (is_token (output_file_name lmt) = true ->
     output_file_name lmt2 = output_file_name lmt) /\
    (last_value "output_file_name" (lines_of text) <> None ->
     output_file_name lmt2 = output_file_name lmt).
Proof.
  intros Hf Hl Hv Hfn.
  destruct (loaded_tokens _ _ _ _ _ _ _ Hf Hl) as (Tn & Th & Tf).
  assert (Hh := loaded_heading _ _ _ _ _ _ _ Hf Hl Hv).
  assert (Hn : one_line (output_file_name lmt) = true).
  { destruct Tn as [-> | Tn];
      [now apply default_name_one_line|now apply token_one_line]. }
  destruct (write_load_fields lmt Hh Hn (token_one_line _ Th)
              (token_one_line _ Tf) model2 ext_unit_dict2 w1)
    as (w2 & lmt2 & w3 & Hw & Hl2 & H1 & H2 & H3 & H4 & H5).
  exists w2, lmt2, w3. split; [exact Hw|]. split; [exact Hl2|].
  rewrite (first_token_or_token _ _ Th) in H3.
  rewrite (first_token_or_token _ _ Tf) in H4.
  repeat split; try assumption.
  - intros T. now rewrite H1, (first_token_or_token _ _ T).
  - intros Hlast.
    assert (T : is_token (output_file_name lmt) = true).
    { destruct (load_fields model ext_unit_dict _ _ _ _ _ Hf Hl)
        as (st & E & G1 & _).
      destruct (scan_lines_fields _ _ _ (lines_of_nonempty text) E)
        as (A1 & _).
      rewrite G1, A1.
      destruct (last_value "output_file_name" (lines_of text)) eqn:L;
        [now apply (last_value_token _ _ _ L)|congruence]. }
    now rewrite H1, (first_token_or_token _ _ T).
Qed.

Lemma X8_load_write_load_witness :
  exists lmt w1 w2 lmt2 w3,
    load (Filename "model.lmt") example_model None
      (world_with "model.lmt" noisy_keys_text) = OK (lmt, w1) /\
    write_file lmt w1 = OK (tt, w2) /\
    load (Filename (fn_path (base lmt))) lookup_model (Some []) w2
      = OK (lmt2, w3) /\
    output_file_header lmt2 = output_file_header lmt /\
    output_file_name lmt2 = output_file_name lmt.
Proof.
  destruct (load (Filename "model.lmt") example_model None
              (world_with "model.lmt" noisy_keys_text))
    as [[lmt w1]|e] eqn:E; [|vm_compute in E; discriminate].
  destruct (X8_load_write_load "model.lmt" noisy_keys_text example_model
              lookup_model None (Some [])
              (world_with "model.lmt" noisy_keys_text) w1 lmt
              eq_refl E eq_refl eq_refl)
    as (w2 & lmt2 & w3 & Hw & Hl & _ & H3 & _ & _ & _ & H7).
  exists lmt, w1, w2, lmt2, w3. repeat split; try assumption.
  apply H7. vm_compute. discriminate.
Defined.

(** ** The default output file name *)

Section DefaultNameFacts.

Lemma rfind_absent (s : string) (c : ascii) :
  no_char c s = true -> Py.rfind s c = -1.
Proof.
  unfold no_char. induction s as [|a s IH]; [reflexivity|].
  cbn [all_chars Py.rfind]. intros H. apply andb_true_iff in H as [Ha Hs].
  rewrite (IH Hs). apply negb_true_iff in Ha. cbn. now rewrite Ha.
Qed.

Lemma rfind_last (a b : string) (c : ascii) :
  no_char c b = true ->
  Py.rfind (a ++ String c b) c = Z.of_nat (String.length a).
Proof.
  intros Hb. induction a as [|x a IH].
  - cbn [String.append Py.rfind String.length]. rewrite (rfind_absent _ _ Hb).
    cbn. now rewrite Ascii.eqb_refl.
  - cbn [String.append Py.rfind String.length]. rewrite IH.
    destruct (Z.leb_spec 0 (Z.of_nat (String.length a))); lia.
Qed.

Lemma slice_index_nat (s : string) (n : nat) :
  (n <= String.length s)%nat -> Py.slice_index s (Z.of_nat n) = n.
Proof.
  intros H. unfold Py.slice_index, Py.len.
  destruct (Z.ltb_spec (Z.of_nat n) 0); lia.
Qed.

Lemma slice_index_minus_one (s : string) :
  Py.slice_index s (-1) = (String.length s - 1)%nat.
Proof. unfold Py.slice_index, Py.len. cbn [Z.ltb Z.compare]. lia. Qed.

Lemma substring_all (s : string) : substring 0 (String.length s) s = s.
Proof. induction s as [|c s IH]; [reflexivity|]. cbn. now rewrite IH. Qed.

Lemma substring_prefix (a b : string) :
  substring 0 (String.length a) (a ++ b) = a.
Proof.
  induction a as [|c a IH]; [destruct b; reflexivity|]. cbn. now rewrite IH.
Qed.

Lemma substring_skip (a b : string) (m : nat) :
  substring (String.length a) m (a ++ b) = substring 0 m b.
Proof. induction a as [|c a IH]; [reflexivity|]. cbn. exact IH. Qed.

(** The directory part of a path: nothing, or something ended by [/]. *)
Lemma basename_of (dir b : string) :
  dir = "" \/ (exists d, dir = d ++ "/") ->
  no_char "/" b = true ->
  Py.basename (dir ++ b) = b.
Proof.
  intros [-> | (d & ->)] Hb; unfold Py.basename, Py.slice_from; cbv zeta.
  - cbn [String.append]. rewrite (rfind_absent _ _ Hb).
    change (-1 + 1) with (Z.of_nat 0).
    rewrite slice_index_nat by lia.
    rewrite Nat.sub_0_r. apply substring_all.
  - rewrite app_assoc. cbn [String.append].
    rewrite (rfind_last d b "/" Hb).
    replace (Z.of_nat (String.length d) + 1)
      with (Z.of_nat (String.length (d ++ "/")))
      by (rewrite length_app; cbn; lia).
    rewrite slice_index_nat
      by (rewrite !length_app; cbn [String.length]; lia).
    change (d ++ String "/" b) with (d ++ "/" ++ b).
    rewrite <- app_assoc, substring_skip.
    replace (String.length ((d ++ "/") ++ b) - String.length (d ++ "/"))%nat
      with (String.length b) by (rewrite !length_app; lia).
    apply substring_all.
Qed.

End DefaultNameFacts.

(** X9: for a file name whose last component is [stem.ext], where the
    extension holds no dot (the stem may), the default output file name
    that [load] starts from is [stem.ftl], without the directory part. *)
Theorem X9_default_name_stem (dir stem ext : string) :
  dir = "" \/ (exists d, dir = d ++ "/") ->
  no_char "/" stem = true ->
  no_char "/" ext = true ->
  no_char "." ext = true ->
  default_output_file_name (dir ++ stem ++ "." ++ ext) = stem ++ ".ftl".
Proof.
  intros Hd Hs He Hx. unfold default_output_file_name. cbv zeta.
  assert (Hb : no_char "/" (stem ++ "." ++ ext) = true).
  { unfold no_char in *. rewrite !all_chars_app, Hs, He. reflexivity. }
  rewrite (basename_of dir _ Hd Hb).
  change (stem ++ "." ++ ext) with (stem ++ String "." ext).
  rewrite (rfind_last stem ext "." Hx). unfold Py.slice_to.
  rewrite slice_index_nat by (rewrite length_app; lia).
  now rewrite substring_prefix.
Qed.

Lemma X9_default_name_stem_witness :
  default_output_file_name ("ws/run.1/" ++ "my.model" ++ "." ++ "lmt") =
  "my.model" ++ ".ftl".
Proof.
  apply (X9_default_name_stem "ws/run.1/" "my.model" "lmt");
    [right; exists "ws/run.1"; reflexivity|reflexivity..].
Defined.

(** X10: for a file name whose last component holds no dot, the default
    output file name is that component without its last character,
    followed by [.ftl]: the slice bound [rfind('.')] is -1. *)
Theorem X10_default_name_no_dot (dir b : string) (c : ascii) :
  dir = "" \/ (exists d, dir = d ++ "/") ->
  no_char "/" (b ++ String c "") = true ->
  no_char "." (b ++ String c "") = true ->
  default_output_file_name (dir ++ b ++ String c "") = b ++ ".ftl".
Proof.
  intros Hd Hs Hx. unfold default_output_file_name. cbv zeta.
  rewrite (basename_of dir _ Hd Hs), (rfind_absent _ _ Hx).
  unfold Py.slice_to. rewrite slice_index_minus_one, length_app.
  cbn [String.length].
  replace (String.length b + 1 - 1)%nat with (String.length b) by lia.
  now rewrite substring_prefix.
Qed.

Lemma X10_default_name_no_dot_witness :
  default_output_file_name ("ws.d/" ++ "mode" ++ String "l" "") =
  "mode" ++ ".ftl".
Proof.
  apply (X10_default_name_no_dot "ws.d/" "mode" "l");
    [right; exists "ws.d"; reflexivity|reflexivity..].
Defined.

(** X11: a file without any relevant line (an empty file, or one holding
    only comments, blank lines, one-token lines and lines with unknown
    keys) loads without error to the default values: the name derived
    from the file name, unit 333, header "standard", format "unformatted"
    and no package flows. *)
Theorem X11_load_defaults (filename text : string) (model : Model)
    (ext_unit_dict : option ExtUnitDict) (w : World) :
  files w filename = Some text ->
  filter relevant_line (lines_of text) = [] ->
  exists lmt w',
    load (Filename filename) model ext_unit_dict w = OK (lmt, w') /\
    output_file_name lmt = default_output_file_name filename /\
    output_file_unit lmt = 333 /\
    output_file_header lmt = "standard" /\
    output_file_format lmt = "unformatted" /\
    package_flows lmt = [].
Proof.
  intros Hf Hr. assert (Hc := load_cases model ext_unit_dict _ _ _ Hf).
  rewrite (scan_lines_relevant _ _ (lines_of_nonempty text)), Hr in Hc.
  cbn [scan_lines] in Hc.
  destruct Hc as (lmt & w' & H0 & H1 & H2 & H3 & H4 & H5 & _).
  exists lmt, w'. cbn in *. tauto.
Qed.

Lemma X11_load_defaults_witness :
  exists lmt w',
    load (Filename "ws/model.lmt") example_model None
      (world_with "ws/model.lmt" "") = OK (lmt, w') /\
    output_file_name lmt = "model.ftl" /\
    output_file_unit lmt = 333 /\
    output_file_header lmt = "standard" /\
    output_file_format lmt = "unformatted" /\
    package_flows lmt = [].
Proof.
  exact (X11_load_defaults "ws/model.lmt" "" example_model None
           (world_with "ws/model.lmt" "") eq_refl eq_refl).
Defined.

(** ** One more line at the end of a file *)

Section StepFacts.




End StepFacts.



(** ** The PACKAGE_FLOWS record of a written file *)

Section FlowRecordFacts.

Lemma flows_record_tokens (self : ModflowLmt) :
  tokens (("PACKAGE_FLOWS " ++ pckgs self) ++ NL) =
  "PACKAGE_FLOWS" :: map upper (canonical_subset (package_flows self)).
Proof.
  replace (("PACKAGE_FLOWS " ++ pckgs self) ++ NL)
    with ("PACKAGE_FLOWS" ++ " " ++ pckgs self ++ "" ++ NL)
    by reflexivity.
  rewrite tokens_keyword_any by reflexivity. now rewrite split_pckgs.
Qed.

Lemma flows_record_nodup (pf : list string) :
  NoDup ("PACKAGE_FLOWS" :: map upper (canonical_subset pf)).
Proof.
  flow_cases; cbn [map];
    repeat (constructor; [cbn [In]; intuition discriminate|]);
    constructor.
Qed.

Lemma skipn_write_records (self : ModflowLmt) :
  skipn 5 (write_records self) =
  match package_flows self with
  | [] => []
  | _ :: _ => [ ("PACKAGE_FLOWS " ++ pckgs self) ++ NL ]
  end.
Proof. reflexivity. Qed.

End FlowRecordFacts.

(** C10: the file [write_file] stores holds, after its five leading
    records, no further record when package_flows is empty and otherwise
    exactly one PACKAGE_FLOWS record; in that record each of SFR, LAK and
    UZF stands at most once, whatever duplicates or differently-cased
    copies package_flows holds, and a keyword stands there exactly when
    some member equals the key up to case. *)
Theorem C10_flow_written_once (self : ModflowLmt) (w : World) :
  exists w',
    write_file self w = OK (tt, w') /\
    files w' (fn_path (base self)) =
      Some (String.concat "" (write_records self)) /\
    match package_flows self with
    | [] => skipn 5 (write_records self) = []
    | _ :: _ =>
        exists record,
          skipn 5 (write_records self) = [record] /\
          tokens record =
            "PACKAGE_FLOWS"
            :: map upper (canonical_subset (package_flows self)) /\
          (forall tok,
             (count_occ string_dec (tokens record) tok <= 1)%nat) /\
          (forall k, In k canonical_order ->
             (In (upper k) (tokens record) <->
              exists x, In x (package_flows self) /\ Py.lower x = k))
    end.
Proof.
  eexists. split; [reflexivity|]. split.
  { cbn [files]. now rewrite String.eqb_refl. }
  rewrite skipn_write_records.
  destruct (package_flows self) as [|x pf] eqn:E; [reflexivity|].
  rewrite <- E. eexists. split; [reflexivity|].
  rewrite flows_record_tokens. split; [reflexivity|]. split.
  - intros tok. apply NoDup_count_occ, flows_record_nodup.
  - intros k Hk.
    destruct (pckgs_keywords self) as (Hs & _ & Hm).
    rewrite <- (Hm k Hk), Hs. cbn [In].
    unfold canonical_order in Hk. cbn [In] in Hk.
    destruct Hk as [<-|[<-|[<-|[]]]]; cbn [upper upper_char];
      intuition discriminate.
Qed.

Lemma C10_flow_written_once_witness :
  exists w' record,
    write_file (example_lmt ["SFR"; "sfr"; "Sfr"; "uzf"; "other"])
      empty_world = OK (tt, w') /\
    skipn 5 (write_records
               (example_lmt ["SFR"; "sfr"; "Sfr"; "uzf"; "other"]))
      = [record] /\
    tokens record = ["PACKAGE_FLOWS"; "SFR"; "UZF"] /\
    (In (upper "sfr") (tokens record) <->
     exists x, In x ["SFR"; "sfr"; "Sfr"; "uzf"; "other"]
               /\ Py.lower x = "sfr").
Proof.
  destruct (C10_flow_written_once
              (example_lmt ["SFR"; "sfr"; "Sfr"; "uzf"; "other"])
              empty_world)
    as (w' & Hw & _ & record & Hr & Ht & _ & Hm).
  exists w', record. split; [exact Hw|]. split; [exact Hr|].
  split; [exact Ht|]. apply Hm. left. reflexivity.
Defined.

(** C8: a call of [ftype()] returns the string "LMT6" and a call of
    [defaultunit()] the integer 30, in every world (whatever objects the
    package list holds) and without changing it; neither takes an
    instance.  These are the values every constructed object is declared
    with (the name, and the unit number when none is given), whatever its
    other arguments, and "LMT6" is the file type [load] looks up in the
    external-unit table. *)
Theorem C8_static_accessors :
  (forall w, call_ftype w = OK ("LMT6", w))
  /\ (forall w, call_defaultunit w = OK (30, w))
  /\ (forall model a w lmt w',
        ModflowLmt_init model a w = OK (lmt, w') ->
        name (base lmt) = ["LMT6"]
        /\ (arg_unitnumber a = None -> unit_number (base lmt) = [30]))
  /\ (forall model d,
        ext_attr model (Some d) = get_ext_dict_attr model d "LMT6").
Proof.
  split; [reflexivity|]. split; [reflexivity|]. split; [|reflexivity].
  intros model a w lmt w'. unfold ModflowLmt_init.
  destruct (nth_error _ 0) as [f0|]; [|discriminate].
  unfold bind, add_package, ret. intros [= <- _]. cbn.
  split; [reflexivity|]. now intros ->.
Qed.

Lemma C8_static_accessors_witness :
  call_ftype busy_world = OK ("LMT6", busy_world)
  /\ call_defaultunit busy_world = OK (30, busy_world)
  /\ exists lmt w',
       ModflowLmt_init lookup_model
         {| arg_output_file_name := Some "x.ftl";
            arg_output_file_unit := Some 7;
            arg_output_file_header := None;
            arg_output_file_format := None;
            arg_extension := Some "lmt";
            arg_package_flows := Some ["uzf"];
            arg_unitnumber := None;
            arg_filenames := Some (FnStr "run.lmt") |} busy_world
       = OK (lmt, w') /\
       name (base lmt) = ["LMT6"] /\ unit_number (base lmt) = [30].
Proof.
  destruct C8_static_accessors as (H1 & H2 & H3 & _).
  split; [apply H1|]. split; [apply H2|].
  destruct (ModflowLmt_init lookup_model
              {| arg_output_file_name := Some "x.ftl";
                 arg_output_file_unit := Some 7;
                 arg_output_file_header := None;
                 arg_output_file_format := None;
                 arg_extension := Some "lmt";
                 arg_package_flows := Some ["uzf"];
                 arg_unitnumber := None;
                 arg_filenames := Some (FnStr "run.lmt") |} busy_world)
    as [[lmt w']|e] eqn:E; [|vm_compute in E; discriminate].
  exists lmt, w'. split; [reflexivity|].
  destruct (H3 _ _ _ _ _ E) as (Hn & Hu).
  split; [exact Hn|apply Hu; reflexivity].
Defined.
